(** * Solana arbitrage bot: opportunity detection and execution safety

    A shallow embedding of the detector ([src/arbitrage.js],
    [src/dex/jupiter-dex-quotes.js]), of the live execution engine
    ([src/live-trader.js]) and of the scan scheduler ([src/index.js],
    [src/ws-monitor.js]), with the properties the specification states
    about them.

    Conventions of the embedding.
    - In the detector and the price sources a JavaScript number is a
      [jsnum]: an exact rational kept in lowest terms, one of the two
      infinities, or NaN; the rounding of binary64 and the sign of zero
      are not modelled there.
    - In the engine, which adds up losses and compares sums with limits, a
      number is an IEEE 754 binary64 value ([f64]) and every operation
      rounds as the machine does.
    - [Date.now()] readings are integers ([Z], milliseconds).
    - Everything the code awaits from outside (quotes, the wallet balance,
      the clock) is an oracle answer passed in explicitly; what it sends
      outside (console lines, notifier messages, ledger writes) is
      returned as a list of effects. *)

From Stdlib Require Import QArith Qround Qabs ZArith List String Ascii Bool Lia Lqa Sorted SpecFloat.
From stdpp Require Import gmap strings list.
Import ListNotations.

Local Open Scope string_scope.
Local Open Scope Z_scope.

(* ===================================================================== *)
(** ** JavaScript numbers *)
(* ===================================================================== *)

Module JS.

Inductive jsnum : Type :=
| Fin (q : Q)
| PInf
| NInf
| NaN.

Definition fin (q : Q) : jsnum := Fin (Qred q).

Definition Qltb (a b : Q) : bool := negb (Qle_bool b a).

(** Sign of a rational as a comparison with zero. *)
Definition sgn (q : Q) : comparison := (0 ?= q)%Q.

Definition jneg (a : jsnum) : jsnum :=
  match a with
  | Fin q => fin (- q)
  | PInf => NInf
  | NInf => PInf
  | NaN => NaN
  end.

Definition jadd (a b : jsnum) : jsnum :=
  match a, b with
  | NaN, _ | _, NaN => NaN
  | Fin x, Fin y => fin (x + y)
  | PInf, NInf | NInf, PInf => NaN
  | PInf, _ | _, PInf => PInf
  | NInf, _ | _, NInf => NInf
  end.

Definition jsub (a b : jsnum) : jsnum := jadd a (jneg b).

(** An infinity of the sign of [q]; NaN when [q] is zero. *)
Definition inf_of_sign (q : Q) (pos : bool) : jsnum :=
  match sgn q with
  | Lt => if pos then PInf else NInf
  | Gt => if pos then NInf else PInf
  | Eq => NaN
  end.

Definition jmul (a b : jsnum) : jsnum :=
  match a, b with
  | NaN, _ | _, NaN => NaN
  | Fin x, Fin y => fin (x * y)
  | Fin x, PInf | PInf, Fin x => inf_of_sign x true
  | Fin x, NInf | NInf, Fin x => inf_of_sign x false
  | PInf, PInf | NInf, NInf => PInf
  | PInf, NInf | NInf, PInf => NInf
  end.

(** Division; a zero divisor is taken as +0. *)
Definition jdiv (a b : jsnum) : jsnum :=
  match a, b with
  | NaN, _ | _, NaN => NaN
  | Fin x, Fin y =>
      if Qeq_bool y 0 then inf_of_sign x true else fin (x / y)
  | Fin _, (PInf | NInf) => Fin 0
  | PInf, Fin y => if Qle_bool 0 y then PInf else NInf
  | NInf, Fin y => if Qle_bool 0 y then NInf else PInf
  | (PInf | NInf), (PInf | NInf) => NaN
  end.

(** [a < b]; every comparison with NaN is false. *)
Definition jlt (a b : jsnum) : bool :=
  match a, b with
  | NaN, _ | _, NaN => false
  | Fin x, Fin y => Qltb x y
  | NInf, (Fin _ | PInf) => true
  | Fin _, PInf => true
  | _, _ => false
  end.

Definition jle (a b : jsnum) : bool :=
  match a, b with
  | NaN, _ | _, NaN => false
  | Fin x, Fin y => Qle_bool x y
  | NInf, _ => true
  | _, PInf => true
  | _, _ => false
  end.

Definition jgt (a b : jsnum) : bool := jlt b a.
Definition jge (a b : jsnum) : bool := jle b a.

(** Strict equality [===] on numbers. *)
Definition jeq (a b : jsnum) : bool :=
  match a, b with
  | Fin x, Fin y => Qeq_bool x y
  | PInf, PInf | NInf, NInf => true
  | _, _ => false
  end.

(** [Math.min], [Math.max], [Math.abs], [Math.floor]. *)
Definition jmin (a b : jsnum) : jsnum :=
  match a, b with
  | NaN, _ | _, NaN => NaN
  | _, _ => if jle a b then a else b
  end.

Definition jmax (a b : jsnum) : jsnum :=
  match a, b with
  | NaN, _ | _, NaN => NaN
  | _, _ => if jle a b then b else a
  end.

Definition jabs (a : jsnum) : jsnum :=
  match a with
  | Fin q => fin (Qabs q)
  | PInf | NInf => PInf
  | NaN => NaN
  end.

Definition jfloor (a : jsnum) : jsnum :=
  match a with
  | Fin q => Fin (inject_Z (Qfloor q))
  | _ => a
  end.

(** Truthiness of a number: zero and NaN are falsy. *)
Definition truthy (a : jsnum) : bool :=
  match a with
  | Fin q => negb (Qeq_bool q 0)
  | PInf | NInf => true
  | NaN => false
  end.

(** [a || b] on numbers. *)
Definition jor (a b : jsnum) : jsnum := if truthy a then a else b.

(** A property that may be absent from an object reads as [undefined];
    [undefined] in arithmetic is NaN. *)
Definition to_number (o : option jsnum) : jsnum :=
  match o with
  | Some a => a
  | None => NaN
  end.

End JS.

Import JS.

Declare Scope js_scope.
Delimit Scope js_scope with js.
Bind Scope js_scope with jsnum.
Infix "+" := jadd : js_scope.
Infix "-" := jsub : js_scope.
Infix "*" := jmul : js_scope.
Infix "/" := jdiv : js_scope.
Notation "a || b" := (jor a b) : js_scope.

(** Decimal literals of the sources. *)
Definition dec (n : Z) (d : positive) : jsnum := fin (n # d).

(* ===================================================================== *)
(** ** Configuration ([config.js]) *)
(* ===================================================================== *)

(** The keys of the exported [config] object that the modelled code reads.
    [discoverySlippage] is read by the detector, but [config.js] defines no
    such key: the object built there always gives [None] (undefined). *)
Record Config : Type := {
  startingCapital   : jsnum;
  slippageTolerance : jsnum;
  discoverySlippage : option jsnum;
  minProfitPercent  : jsnum;
  minProfitAbsolute : jsnum;
  maxTradeAmountUsd : jsnum;
  maxDailyLossUsd   : jsnum;
  (** [parseInt] of SELL_RETRY_COUNT: an integer, or NaN ([None]). *)
  sellRetryCount    : option Z;
  solGasReserve     : jsnum;
  discordWebhook    : string;
  baseToken         : string;
  tokens            : gmap string string;
  (** [parseFloat(process.env.ALERT_QUOTE_DIFF_USD || '0')]. *)
  alertQuoteDiffUsd : jsnum
}.

(** The token table of [config.js]. *)
Definition config_tokens : gmap string string :=
  list_to_map
    [ ("SOL",  "So11111111111111111111111111111111111111112");
      ("USDC", "EPjFWdd5AufqSSqeM2qN1xzybapC8G4wEGGkZwyTDt1v");
      ("RAY",  "4k3Dyjzvzp8eMZWUXbBCjEvwSkkk59S5iCNLY3QrkX6R");
      ("BONK", "DezXAZ8z7PnrnRJjz3wXBoRgixCa6xjnB7YaB1pPB263");
      ("USDT", "Es9vMFrzaCERmJfrF4H2FYD4KCoNkY11McCe8BenwNYB");
      ("JUP",  "JUPyiwrYJFskUPiHa7hkeR8VUtAeFoSYbKedZNsDvCN");
      ("ORCA", "orcaEKTdK7LKz57vaAYr9QeNsVEPfiu6QeMU1kektZE") ].

(** The object [config.js] builds when no environment variable is set,
    with the slippage tolerance and the minimum profit percent left open. *)
Definition config_js (slippage minProfit : jsnum) (webhook : string) : Config := {|
  startingCapital   := dec 20 1;
  slippageTolerance := slippage;
  discoverySlippage := None;
  minProfitPercent  := minProfit;
  minProfitAbsolute := dec 17 100;
  maxTradeAmountUsd := dec 10 1;
  maxDailyLossUsd   := dec 2 1;
  sellRetryCount    := Some 3;
  solGasReserve     := dec 1 100;
  discordWebhook    := webhook;
  baseToken         := "SOL";
  tokens            := config_tokens;
  alertQuoteDiffUsd := dec 0 1
|}.

(** [symbol.toUpperCase()] on the ASCII letters. *)
Definition upper_ascii (c : ascii) : ascii :=
  let n := nat_of_ascii c in
  if (97 <=? n)%nat && (n <=? 122)%nat then ascii_of_nat (n - 32) else c.

Fixpoint toUpperCase (s : string) : string :=
  match s with
  | EmptyString => EmptyString
  | String c r => String (upper_ascii c) (toUpperCase r)
  end.

(** [getTokenMint]: [config.tokens[symbol.toUpperCase()] || null]. *)
Definition getTokenMint (cfg : Config) (symbol : string) : option string :=
  match tokens cfg !! toUpperCase symbol with
  | Some m => if String.eqb m "" then None else Some m
  | None => None
  end.

(* ===================================================================== *)
(** ** The detector ([arbitrage.js]) *)
(* ===================================================================== *)

(** A price point as both sources build it; [priceImpactPct] and
    [pairAddress], which no modelled code reads, are left out. *)
Record PricePoint : Type := {
  exchange  : string;
  price     : jsnum;
  timestamp : Z;
  liquidity : jsnum;
  volume24h : jsnum
}.

(** The objects pushed on [opportunities]. *)
Record Opportunity : Type := {
  buyExchange   : string;
  sellExchange  : string;
  buyPrice      : jsnum;
  sellPrice     : jsnum;
  profitPercent : jsnum;
  detectedAt    : Z
}.

(** What a call leaves behind: a value, or an exception. *)
Inductive outcome (A : Type) : Type :=
| Returned (a : A)
| Threw (error : string).
Arguments Returned {A} a.
Arguments Threw {A} error.

Inductive spread_tag : Type := TagMet | TagNear | TagFar.

(** Output of the detector: the best-spread console line. *)
Inductive detector_io : Type :=
| LogBestSpread (token : string) (bestSpread : jsnum) (bestPair : string)
                (tag : spread_tag) (minThreshold : jsnum).

Module Detector.

(** The clock of one invocation: the k-th [Date.now()] it reads. *)
Definition clock : Type := nat -> Z.

(** Locals of the two nested loops. *)
Record scan : Type := {
  opportunities : list Opportunity;
  bestSpread    : jsnum;
  bestPair      : string;
  reads         : nat
}.

Definition scan0 : scan :=
  {| opportunities := []; bestSpread := Fin 0; bestPair := ""; reads := 0 |}.

Definition minThreshold (cfg : Config) : jsnum :=
  (minProfitPercent cfg * dec 100 1)%js.

(** Line 72: [buyPrice * (1 + config.discoverySlippage || config.slippageTolerance)].
    [+] binds tighter than [||]. *)
Definition buyPriceWithSlippage (cfg : Config) (buy : jsnum) : jsnum :=
  (buy * ((dec 1 1 + to_number (discoverySlippage cfg)) || slippageTolerance cfg))%js.

(** Line 73: [sellPrice * (1 - config.discoverySlippage || config.slippageTolerance)]. *)
Definition sellPriceWithSlippage (cfg : Config) (sell : jsnum) : jsnum :=
  (sell * ((dec 1 1 - to_number (discoverySlippage cfg)) || slippageTolerance cfg))%js.

(** Line 75. *)
Definition adjustedProfitPercent (cfg : Config) (buy sell : jsnum) : jsnum :=
  (((sellPriceWithSlippage cfg sell - buyPriceWithSlippage cfg buy)
      / buyPriceWithSlippage cfg buy) * dec 100 1)%js.

(** Line 65. *)
Definition rawSpread (buy sell : jsnum) : jsnum :=
  (((sell - buy) / buy) * dec 100 1)%js.

(** Body of the inner loop for the pair [price1], [price2]. *)
Definition pair_step (cfg : Config) (clk : clock)
    (price1 price2 : PricePoint) (s : scan) : scan :=
  let now := clk (reads s) in
  let s := {| opportunities := opportunities s; bestSpread := bestSpread s;
              bestPair := bestPair s; reads := S (reads s) |} in
  if (now - timestamp price1 >? 10000) || (now - timestamp price2 >? 10000)
  then s
  else if String.eqb (exchange price1) (exchange price2) then s
  else
    let buy  := jmin (price price1) (price price2) in
    let sell := jmax (price price1) (price price2) in
    let buyEx  := if jlt (price price1) (price price2)
                  then exchange price1 else exchange price2 in
    let sellEx := if jlt (price price1) (price price2)
                  then exchange price2 else exchange price1 in
    let raw := rawSpread buy sell in
    let '(best, bestP) :=
      if jgt raw (bestSpread s) then (raw, (buyEx ++ "→" ++ sellEx)%string)
      else (bestSpread s, bestPair s) in
    let profit := adjustedProfitPercent cfg buy sell in
    let opps :=
      if jge profit (minThreshold cfg)
      then (opportunities s ++
           [ {| buyExchange := buyEx; sellExchange := sellEx;
                buyPrice := buyPriceWithSlippage cfg buy;
                sellPrice := sellPriceWithSlippage cfg sell;
                profitPercent := profit; detectedAt := now |} ])%list
      else opportunities s in
    {| opportunities := opps; bestSpread := best; bestPair := bestP;
       reads := reads s |}.

(** [for (j = i + 1; ...)] with [prices[i]] fixed. *)
Fixpoint inner_loop (cfg : Config) (clk : clock) (price1 : PricePoint)
    (rest : list PricePoint) (s : scan) : scan :=
  match rest with
  | [] => s
  | price2 :: rest' =>
      inner_loop cfg clk price1 rest' (pair_step cfg clk price1 price2 s)
  end.

(** [for (i = 0; ...)]. *)
Fixpoint outer_loop (cfg : Config) (clk : clock) (prices : list PricePoint)
    (s : scan) : scan :=
  match prices with
  | [] => s
  | price1 :: rest =>
      outer_loop cfg clk rest (inner_loop cfg clk price1 rest s)
  end.

Definition spread_tag_of (best thr : jsnum) : spread_tag :=
  if jge best thr then TagMet
  else if jgt best (dec 1 10) then TagNear else TagFar.

(** Lines 96-98: the best spread is below the threshold by at most the
    margin of 0.2. *)
Definition near_miss (best thr : jsnum) : bool :=
  jlt best thr && jge best (thr - dec 2 10)%js.

(** [findArbitrageOpportunities(prices, tokenSymbol)].

    After the loops, a non-empty [bestPair] writes the best-spread line.
    On a near miss with a webhook configured the code builds the alert
    text from [buyPrice] and [sellPrice]; these are [const]s of the inner
    loop body and are not in scope after the loops, so evaluating the
    template raises a ReferenceError before anything is posted. *)
Definition findArbitrageOpportunities (cfg : Config) (clk : clock)
    (prices : list PricePoint) (tokenSymbol : string)
  : outcome (list Opportunity) * list detector_io :=
  let s := outer_loop cfg clk prices scan0 in
  let thr := minThreshold cfg in
  if String.eqb (bestPair s) "" then (Returned (opportunities s), [])
  else
    let line := LogBestSpread tokenSymbol (bestSpread s) (bestPair s)
                  (spread_tag_of (bestSpread s) thr) thr in
    if near_miss (bestSpread s) thr && negb (String.eqb (discordWebhook cfg) "")
    then (Threw "ReferenceError: buyPrice is not defined", [line])
    else (Returned (opportunities s), [line]).

End Detector.

(* ===================================================================== *)
(** ** Binary64 numbers *)
(* ===================================================================== *)

(** The engine keeps running sums and compares them with limits, so its
    numbers are modelled as the IEEE 754 binary64 values they are, with
    the operations of the Standard Library's [SpecFloat] at precision 53
    and maximal exponent 1024 (round to nearest, ties to even). *)
Module F64.

Definition prec : Z := 53.
Definition emax : Z := 1024.

Definition f64 : Type := spec_float.

Definition fzero : f64 := S754_zero false.
Definition fnan : f64 := S754_nan.

Definition fadd : f64 -> f64 -> f64 := SFadd prec emax.
Definition fsub : f64 -> f64 -> f64 := SFsub prec emax.
Definition fmul : f64 -> f64 -> f64 := SFmul prec emax.
Definition fdiv : f64 -> f64 -> f64 := SFdiv prec emax.

(** [<], [<=], [===] and their mirrors; false on NaN, and the two zeros
    are equal. *)
Definition flt : f64 -> f64 -> bool := SFltb.
Definition fle : f64 -> f64 -> bool := SFleb.
Definition feq : f64 -> f64 -> bool := SFeqb.
Definition fgt (a b : f64) : bool := flt b a.
Definition fge (a b : f64) : bool := fle b a.

Definition fabs : f64 -> f64 := SFabs.

(** [Math.min] and [Math.max]: NaN when an argument is NaN, and -0 below
    +0. *)
Definition fmin (a b : f64) : f64 :=
  match a, b with
  | S754_nan, _ | _, S754_nan => S754_nan
  | _, _ =>
      match SFcompare a b with
      | Some Lt => a
      | Some Gt => b
      | _ => match a with S754_zero true => a | _ => b end
      end
  end.

Definition fmax (a b : f64) : f64 :=
  match a, b with
  | S754_nan, _ | _, S754_nan => S754_nan
  | _, _ =>
      match SFcompare a b with
      | Some Lt => b
      | Some Gt => a
      | _ => match a with S754_zero false => a | _ => b end
      end
  end.

(** An integer as a binary64 number, rounded when it has more than 53
    bits. *)
Definition of_Z (z : Z) : f64 := binary_normalize prec emax z 0 false.

(** [Math.floor]: a number with a negative exponent has a magnitude below
    2^53, so its floor is an integer that binary64 holds exactly. *)
Definition ffloor (a : f64) : f64 :=
  match a with
  | S754_finite s m e =>
      if 0 <=? e then a
      else
        let z := Z.shiftr (if s then Z.neg m else Z.pos m) (- e) in
        if z =? 0 then S754_zero s else of_Z z
  | _ => a
  end.

(** Truthiness: the zeros and NaN are falsy. *)
Definition ftruthy (a : f64) : bool :=
  match a with
  | S754_zero _ | S754_nan => false
  | _ => true
  end.

(** The binary64 number nearest to a rational: what a decimal literal of
    the source denotes and what [parseFloat] gives for a decimal string.
    The division is the correctly rounded one, taken on the numerator and
    the denominator as they are. *)
Definition of_Q (q : Q) : f64 :=
  match Qnum q with
  | Z0 => fzero
  | Zpos n => fdiv (S754_finite false n 0) (S754_finite false (Qden q) 0)
  | Zneg n => fdiv (S754_finite true n 0) (S754_finite false (Qden q) 0)
  end.

(** A decimal literal [n / d]. *)
Definition lit (n : Z) (d : positive) : f64 := of_Q (n # d).

(** A number of the configuration or of the detector, as the engine
    computes with it. *)
Definition of_js (x : jsnum) : f64 :=
  match x with
  | Fin q => of_Q q
  | PInf => S754_infinity false
  | NInf => S754_infinity true
  | NaN => S754_nan
  end.

(** The rational a finite binary64 number stands for, in lowest terms. *)
Definition value (a : f64) : option Q :=
  match a with
  | S754_zero _ => Some 0%Q
  | S754_finite s m e =>
      let n := if s then Z.neg m else Z.pos m in
      Some (Qred (match e with
                  | Z0 => n # 1
                  | Zpos k => (n * 2 ^ Zpos k) # 1
                  | Zneg k => n # (2 ^ k)
                  end))
  | _ => None
  end.

End F64.

Import F64.

Arguments fadd : simpl never.
Arguments fsub : simpl never.
Arguments fmul : simpl never.
Arguments fdiv : simpl never.
Arguments flt : simpl never.
Arguments fle : simpl never.
Arguments feq : simpl never.
Arguments fgt : simpl never.
Arguments fge : simpl never.
Arguments fabs : simpl never.
Arguments fmin : simpl never.
Arguments fmax : simpl never.
Arguments ffloor : simpl never.
Arguments of_Q : simpl never.
Arguments of_js : simpl never.
Arguments lit : simpl never.

(* ===================================================================== *)
(** ** The live execution engine ([live-trader.js]) *)
(* ===================================================================== *)

(** An opportunity as [scanForOpportunities] hands it on: the detector's
    object with the [pair] key added. *)
Record TradeOpportunity : Type := {
  pair  : string;
  found : Opportunity
}.

(** The trade record [executeTrade] is written to return.  The record
    keeps the two transaction ids from which the [notes] text of the
    source is formatted. *)
Module Trade.
Record t : Type := {
  timestamp     : Z;
  pair          : string;
  buyExchange   : string;
  sellExchange  : string;
  buyPrice      : f64;
  sellPrice     : f64;
  amount        : f64;
  profitUsd     : f64;
  profitPercent : f64;
  simulated     : bool;
  executed      : bool;
  buyTxId       : option string;
  sellTxId      : option string
}.

(** Truthiness of a transaction id: [null] and the empty string are falsy. *)
Definition present (tx : option string) : bool :=
  match tx with
  | Some s => negb (String.eqb s "")
  | None => false
  end.
End Trade.

(** A quote of the routing service; [outAmount] is [parseInt(quote.outAmount)]. *)
Record Quote : Type := { outAmount : f64 }.

(** The messages the engine hands to the notifier on the paths that can
    run: those of the auto-sell. *)
Inductive effect : Type :=
| NotifyAutoSellDryRun (symbol : string)
| NotifyAutoSellAborted (symbol : string)
| NotifyAutoSellSold (symbol txId : string)
| NotifyAutoSellFailed (symbol : string)
| NotifyAutoSellError (symbol : string).

(** The answers of the outside world during one [executeTrade]. *)
Record Env : Type := {
  (** [Date.now()] in [_fetchSolPrice] *)
  nowPrice       : Z;
  (** the SOL price request, [parseFloat] of the amount; [None]: it failed *)
  solPriceApi    : option f64;
  (** [connection.getBalance]; [None]: it raised *)
  walletLamports : option f64;
  (** the quote endpoint, by input mint, output mint and raw amount;
      [None]: the request failed or gave nothing *)
  quoteApi       : string -> string -> f64 -> option Quote
}.

(** The exceptions that end [executeTrade] in its [catch]. *)
Inductive failure : Type :=
| BalanceReadFailed
| InsufficientSol
| NoBuyQuote
| NoSellQuote
| NotAFunction (method : string).

(** The ways out of [executeTrade], each one a [return null]: the breaker
    (line 139), a trade size of zero (line 144), the profit check on the
    real quotes (line 181), and the [catch] (line 316). *)
Inductive exit : Type :=
| ExitHalted
| ExitSizeZero
| ExitUnprofitable
| ExitFailed (e : failure).

Module Engine.

Definition LAMPORTS_PER_SOL : f64 := lit 1000000000 1.

Record LiveTrader : Type := {
  dryRun              : bool;
  balance             : f64;
  _solPriceUsd        : option f64;
  _solPriceTs         : Z;
  _dailyLoss          : f64;
  _dailyLossReset     : Z;
  _halted             : bool;
  _sellFailureCounts  : gmap string nat;
  _failureThreshold   : nat;
  _raisedMinProfitPct : f64
}.

(** [d.setUTCHours(24, 0, 0, 0)]: the next UTC midnight after [now]. *)
Definition _todayMidnightUtc (now : Z) : Z := (now / 86400000 + 1) * 86400000.

(** The constructor, run at time [now]. *)
Definition new_trader (cfg : Config) (dry : bool) (now : Z) : LiveTrader := {|
  dryRun := dry;
  balance := of_js (startingCapital cfg);
  _solPriceUsd := None;
  _solPriceTs := 0;
  _dailyLoss := fzero;
  _dailyLossReset := _todayMidnightUtc now;
  _halted := false;
  _sellFailureCounts := ∅;
  _failureThreshold := 3;
  _raisedMinProfitPct := lit 1 100
|}.

Definition set_balance (st : LiveTrader) (b : f64) : LiveTrader :=
  {| dryRun := dryRun st; balance := b;
     _solPriceUsd := _solPriceUsd st; _solPriceTs := _solPriceTs st;
     _dailyLoss := _dailyLoss st; _dailyLossReset := _dailyLossReset st;
     _halted := _halted st; _sellFailureCounts := _sellFailureCounts st;
     _failureThreshold := _failureThreshold st;
     _raisedMinProfitPct := _raisedMinProfitPct st |}.

Definition set_solPrice (st : LiveTrader) (p : f64) (ts : Z) : LiveTrader :=
  {| dryRun := dryRun st; balance := balance st;
     _solPriceUsd := Some p; _solPriceTs := ts;
     _dailyLoss := _dailyLoss st; _dailyLossReset := _dailyLossReset st;
     _halted := _halted st; _sellFailureCounts := _sellFailureCounts st;
     _failureThreshold := _failureThreshold st;
     _raisedMinProfitPct := _raisedMinProfitPct st |}.

Definition set_breaker (st : LiveTrader) (loss : f64) (reset : Z) (h : bool)
  : LiveTrader :=
  {| dryRun := dryRun st; balance := balance st;
     _solPriceUsd := _solPriceUsd st; _solPriceTs := _solPriceTs st;
     _dailyLoss := loss; _dailyLossReset := reset;
     _halted := h; _sellFailureCounts := _sellFailureCounts st;
     _failureThreshold := _failureThreshold st;
     _raisedMinProfitPct := _raisedMinProfitPct st |}.

Definition set_counts (st : LiveTrader) (m : gmap string nat) : LiveTrader :=
  {| dryRun := dryRun st; balance := balance st;
     _solPriceUsd := _solPriceUsd st; _solPriceTs := _solPriceTs st;
     _dailyLoss := _dailyLoss st; _dailyLossReset := _dailyLossReset st;
     _halted := _halted st; _sellFailureCounts := m;
     _failureThreshold := _failureThreshold st;
     _raisedMinProfitPct := _raisedMinProfitPct st |}.

(** [this._sellFailureCounts[pairKey] || 0] *)
Definition failures (st : LiveTrader) (pairKey : string) : nat :=
  default 0%nat (_sellFailureCounts st !! pairKey).

(** [_fetchSolPrice]: the cached price while it is truthy and younger than
    60 s, else the fetched one, else the stale one ([?? 0]). *)
Definition _fetchSolPrice (st : LiveTrader) (now : Z) (api : option f64)
  : LiveTrader * f64 :=
  let cached := match _solPriceUsd st with
                | Some p => ftruthy p && (now - _solPriceTs st <? 60000)
                | None => false
                end in
  if cached then (st, default fzero (_solPriceUsd st))
  else match api with
       | Some p => (set_solPrice st p now, p)
       | None => (st, default fzero (_solPriceUsd st))
       end.

Definition _getEffectiveMinProfitPercent (cfg : Config) (st : LiveTrader)
    (pairKey : string) : f64 :=
  if (_failureThreshold st <=? failures st pairKey)%nat
  then _raisedMinProfitPct st
  else of_js (minProfitPercent cfg).

Definition _calcTradeAmount (cfg : Config) (st : LiveTrader)
    (o : TradeOpportunity) : f64 :=
  let maxByConfig := of_js (maxTradeAmountUsd cfg) in
  let maxByBalance := fmul (balance st) (lit 95 100) in
  let tradeAmount := fmin maxByConfig maxByBalance in
  let sell := of_js (sellPrice (found o)) in
  let buy := of_js (buyPrice (found o)) in
  let profitPerDollar := fdiv (fsub sell buy) buy in
  let estimatedProfit := fmul tradeAmount profitPerDollar in
  if flt estimatedProfit (of_js (minProfitAbsolute cfg)) then fzero
  else tradeAmount.

(** [_assertGasReserve]: [None] when it returns, the exception when it
    raises. *)
Definition _assertGasReserve (cfg : Config) (lamports : option f64)
    (tradeAmountUsd solPriceUsd : f64) : option failure :=
  match lamports with
  | None => Some BalanceReadFailed
  | Some l =>
      let solBalance := fdiv l LAMPORTS_PER_SOL in
      let tradeSol := if fgt solPriceUsd fzero
                      then fdiv tradeAmountUsd solPriceUsd else fzero in
      let required := fadd (of_js (solGasReserve cfg)) tradeSol in
      if flt solBalance required then Some InsufficientSol else None
  end.

(** [_recordLoss(amount)], with the clock read as [now]. *)
Definition _recordLoss (cfg : Config) (st : LiveTrader) (now : Z)
    (amount : f64) : LiveTrader :=
  let '(loss0, reset) :=
    if _dailyLossReset st <=? now then (fzero, _todayMidnightUtc now)
    else (_dailyLoss st, _dailyLossReset st) in
  let loss := fadd loss0 amount in
  set_breaker st loss reset
    (if fge loss (of_js (maxDailyLossUsd cfg)) then true else _halted st).

Definition usdToLamports (usd solPriceUsd : f64) : f64 :=
  ffloor (fmul (fdiv usd solPriceUsd) LAMPORTS_PER_SOL).

(** [s.split('/')[0]] *)
Fixpoint split_head (s : string) : string :=
  match s with
  | EmptyString => EmptyString
  | String c r => if Ascii.eqb c "/" then EmptyString else String c (split_head r)
  end.

(** [_getQuote] called with a raw amount. *)
Definition _getQuote (cfg : Config) (env : Env)
    (inputSymbol outputSymbol : string) (inputRaw : f64) : option Quote :=
  match getTokenMint cfg inputSymbol, getTokenMint cfg outputSymbol with
  | Some inputMint, Some outputMint => quoteApi env inputMint outputMint inputRaw
  | _, _ => None
  end.

(** [this._simulateSwap(quote, label)], lines 187 and 188.  The class
    [LiveTrader] defines no method of this name and extends no other
    class, so the property is [undefined] and calling it raises
    "TypeError: this._simulateSwap is not a function", whatever the
    quote. *)
Definition _simulateSwap (q : Quote) : failure := NotAFunction "_simulateSwap".

(** The [try] block of [executeTrade] with the trade size and the SOL
    price in hand (lines 155 to 188): the gas check, the two quotes, the
    profit check on the quoted amounts, and the dry run of the buy leg. *)
Definition try_block (cfg : Config) (st : LiveTrader) (env : Env)
    (o : TradeOpportunity) (amountUsd solPrice : f64) : exit :=
  match _assertGasReserve cfg (walletLamports env) amountUsd solPrice with
  | Some e => ExitFailed e
  | None =>
      let base := split_head (pair o) in
      let buyLamports := usdToLamports amountUsd solPrice in
      match _getQuote cfg env "SOL" base buyLamports with
      | None => ExitFailed NoBuyQuote
      | Some buyQuote =>
          let tokensOut := outAmount buyQuote in
          match _getQuote cfg env base "SOL" tokensOut with
          | None => ExitFailed NoSellQuote
          | Some sellQuote =>
              let realBuySol  := fdiv buyLamports LAMPORTS_PER_SOL in
              let realSellSol := fdiv (outAmount sellQuote) LAMPORTS_PER_SOL in
              let realBuyUsd  := fmul realBuySol solPrice in
              let realSellUsd := fmul realSellSol solPrice in
              let realProfit := fsub realSellUsd realBuyUsd in
              let realProfitPct :=
                fmul (fdiv realProfit realBuyUsd) (lit 100 1) in
              let effectiveMinProfit :=
                _getEffectiveMinProfitPercent cfg st (pair o) in
              if fle realProfit fzero
                 || flt realProfitPct (fmul effectiveMinProfit (lit 100 1))
              then ExitUnprofitable
              else ExitFailed (_simulateSwap buyQuote)
          end
      end
  end.

(** [executeTrade(opportunity)] with the way out it takes.  Nothing of the
    function after line 187 can run: submission, the sell retries, the
    failure counts, the balance update, [_recordLoss], the trade record,
    the notifier alerts and the ledger writes all follow the call of
    [_simulateSwap] inside the same [try]. *)
Definition executeTrade_exit (cfg : Config) (st : LiveTrader) (env : Env)
    (o : TradeOpportunity) : LiveTrader * exit :=
  if _halted st then (st, ExitHalted)
  else
    let amountUsd := _calcTradeAmount cfg st o in
    if feq amountUsd fzero then (st, ExitSizeZero)
    else
      let '(st1, solPrice) := _fetchSolPrice st (nowPrice env) (solPriceApi env) in
      (st1, try_block cfg st1 env o amountUsd solPrice).

(** [executeTrade(opportunity)]: the engine afterwards, the trade record or
    [null], and what was sent to the notifier.  Every way out returns
    [null], and no way out is behind a notifier call. *)
Definition executeTrade (cfg : Config) (st : LiveTrader) (env : Env)
    (o : TradeOpportunity) : LiveTrader * option Trade.t * list effect :=
  let '(st', _) := executeTrade_exit cfg st env o in
  (st', None, []).

(** Lines 262 to 264, the head of step 6, for a trade with the realized
    profit [realProfit]: [this.balance += realProfit] and, on a loss,
    [this._recordLoss(Math.abs(realProfit))].  [executeTrade] does not get
    this far; the lines are the only caller of [_recordLoss]. *)
Definition book_profit (cfg : Config) (st : LiveTrader) (now : Z)
    (realProfit : f64) : LiveTrader :=
  let st1 := set_balance st (fadd (balance st) realProfit) in
  if flt realProfit fzero then _recordLoss cfg st1 now (fabs realProfit)
  else st1.

(** [init()]: seeds the balance from the wallet; on a failed balance read
    the starting capital stays. *)
Definition init (cfg : Config) (st : LiveTrader) (now : Z)
    (api : option f64) (lamports : option f64) : LiveTrader :=
  let '(st1, solPrice) := _fetchSolPrice st now api in
  match lamports with
  | None => st1
  | Some l =>
      let solAmount := fdiv l LAMPORTS_PER_SOL in
      let tradeable :=
        fmax fzero (fsub solAmount (of_js (solGasReserve cfg))) in
      set_balance st1 (fmul tradeable solPrice)
  end.

(** [_processAutoSell(symbol, ...)]: [quote] is the answer to its quote
    request, [lamports] the wallet balance, [txId] what [_submitSwap]
    returns.  A confirmed sale clears the failure count of [symbol/SOL]. *)
Definition _processAutoSell (cfg : Config) (st : LiveTrader)
    (now : Z) (api : option f64) (quote : option Quote)
    (lamports : option f64) (txId : option string) (symbol : string)
  : LiveTrader * list effect :=
  match quote with
  | None => (st, [NotifyAutoSellError symbol])
  | Some _ =>
      if dryRun st then (st, [NotifyAutoSellDryRun symbol])
      else
        let '(st1, _) := _fetchSolPrice st now api in
        match lamports with
        | None => (st1, [NotifyAutoSellError symbol])
        | Some l =>
            if flt (fdiv l LAMPORTS_PER_SOL) (of_js (solGasReserve cfg))
            then (st1, [NotifyAutoSellAborted symbol])
            else if Trade.present txId then
              let key := (symbol ++ "/SOL")%string in
              (if (failures st1 key =? 0)%nat then st1
               else set_counts st1 (<[key := 0%nat]> (_sellFailureCounts st1)),
               [NotifyAutoSellSold symbol (default "" txId)])
            else (st1, [NotifyAutoSellFailed symbol])
        end
  end.

End Engine.

(* ===================================================================== *)
(** ** Price sources ([jupiter-dex-quotes.js], [fetchAllPrices]) *)
(* ===================================================================== *)

Module Prices.

Definition PROBE_LAMPORTS : jsnum := dec 50000000 1.
Definition TARGET_DEXES : list string := ["Raydium"; "Orca"; "Meteora"].
Definition CACHE_TTL_MS : Z := 2000.

(** The body of a quote response as [_quoteDex] reads it: whether
    [outAmount] is truthy, [parseInt(outAmount, 10)], and the length of
    [routePlan]. *)
Record DexQuote : Type := {
  outAmountPresent : bool;
  tokensOut        : jsnum;
  routePlanLength  : nat
}.

(** The outside world during one [fetchAllPrices]. *)
Record Env : Type := {
  (** [Date.now()] at the cache check, in [_quoteDex], at the cache store *)
  nowCheck    : Z;
  nowQuote    : string -> Z;
  nowStore    : Z;
  (** the quote request restricted to one DEX; [None]: it raised *)
  dexQuote    : string -> string -> option DexQuote;
  (** [Object.values] of what [dexScreener.getPrice] returns; [None]: null *)
  dexScreener : option (list PricePoint)
}.

(** The [cache] Map of [JupiterDexQuotes]: token symbol to [{ts, prices}]. *)
Abbreviation Cache := (gmap string (Z * list PricePoint)).

Definition _quoteDex (env : Env) (dexName outputMint : string)
  : option PricePoint :=
  match dexQuote env dexName outputMint with
  | None => None
  | Some q =>
      if negb (outAmountPresent q) || (routePlanLength q =? 0)%nat then None
      else if jeq (tokensOut q) (Fin 0) then None
      else Some {| exchange := dexName;
                   price := (PROBE_LAMPORTS / tokensOut q)%js;
                   timestamp := nowQuote env dexName;
                   liquidity := dec 999999 1;
                   volume24h := dec 999999 1 |}
  end.

(** [TARGET_DEXES.map(...)] settled, then the fulfilled non-null values. *)
Definition quote_all (env : Env) (mint : string) (dexes : list string)
  : list PricePoint :=
  omap (fun dex => _quoteDex env dex mint) dexes.

(** [JupiterDexQuotes.getPrices(tokenSymbol)] *)
Definition getPrices (cfg : Config) (cache : Cache) (env : Env)
    (tokenSymbol : string) : Cache * list PricePoint :=
  match getTokenMint cfg tokenSymbol with
  | None => (cache, [])
  | Some mint =>
      match cache !! tokenSymbol with
      | Some (ts, cached) =>
          if nowCheck env - ts <? CACHE_TTL_MS then (cache, cached)
          else
            let prices := quote_all env mint TARGET_DEXES in
            (<[tokenSymbol := (nowStore env, prices)]> cache, prices)
      | None =>
          let prices := quote_all env mint TARGET_DEXES in
          (<[tokenSymbol := (nowStore env, prices)]> cache, prices)
      end
  end.

(** [invalidateAll()] *)
Definition invalidateAll (cache : Cache) : Cache := ∅.

(** The filter of the fallback branch of [fetchAllPrices]. *)
Definition liquid (p : PricePoint) : bool :=
  jgt (liquidity p) (dec 10000 1) && jgt (volume24h p) (dec 500 1).

(** [ArbitrageDetector.fetchAllPrices(tokenSymbol)] *)
Definition fetchAllPrices (cfg : Config) (cache : Cache) (env : Env)
    (tokenSymbol : string) : Cache * list PricePoint :=
  let '(cache', jupPrices) := getPrices cfg cache env tokenSymbol in
  if (2 <=? length jupPrices)%nat then (cache', jupPrices)
  else
    (cache',
     match dexScreener env with
     | Some dexPrices => List.filter liquid dexPrices
     | None => []
     end).

(** The venues of a result set, and how many distinct ones there are. *)
Definition venues (l : list PricePoint) : list string := map exchange l.

Definition distinct_venues (l : list PricePoint) : nat :=
  length (remove_dups (venues l)).

(** Every cached result set has one point per venue at most. *)
Definition cache_ok (cache : Cache) : Prop :=
  forall tok ts ps, cache !! tok = Some (ts, ps) -> NoDup (venues ps).

End Prices.

(* ===================================================================== *)
(** ** The scan scheduler ([index.js], [ws-monitor.js]) *)
(* ===================================================================== *)

Module Scheduler.

Definition FALLBACK_POLL_MS : Z := 3 * 60 * 1000.
Definition DEBOUNCE_MS : Z := 150.
Definition MIN_SCAN_INTERVAL_MS : Z := 8000.

(** Who called [scanAndTrade]: [start], [_onSwapEvent], or the callback of
    the fallback timer. *)
Inductive origin : Type := Boot | Push | Fallback.

(** The bot and its monitor between two callbacks.  A timer is the deadline
    it is armed for, [None] once it has fired or was never set.  [inflight]
    lists the [scanAndTrade] calls that have started and not returned:
    the function awaits the scan and every trade, so other callbacks run
    while it is suspended. *)
Record Bot : Type := {
  clock          : Z;
  scanning       : bool;
  fallbackTimer  : option Z;
  inflight       : list origin;
  debounceTimer  : option (Z * string);
  lastScanAt     : Z;
  swapEventCount : nat;
  triggeredScans : nat
}.

Inductive event : Type :=
| Logs (dexName : string)       (** [_onLogs] with a successful transaction *)
| DebounceFires                 (** the callback of the debounce timer *)
| FallbackFires                 (** the callback of the fallback timer *)
| ScanReturns (i : nat).        (** the i-th call in flight returns *)

Definition at_time (b : Bot) (t : Z) : Bot :=
  {| clock := t; scanning := scanning b; fallbackTimer := fallbackTimer b;
     inflight := inflight b; debounceTimer := debounceTimer b;
     lastScanAt := lastScanAt b; swapEventCount := swapEventCount b;
     triggeredScans := triggeredScans b |}.

(** [_resetFallbackTimer()] *)
Definition _resetFallbackTimer (b : Bot) : Bot :=
  {| clock := clock b; scanning := scanning b;
     fallbackTimer := Some (clock b + FALLBACK_POLL_MS);
     inflight := inflight b; debounceTimer := debounceTimer b;
     lastScanAt := lastScanAt b; swapEventCount := swapEventCount b;
     triggeredScans := triggeredScans b |}.

(** [scanAndTrade()] up to its first [await]: the flag is set and the call
    is in flight. *)
Definition scanAndTrade_begins (who : origin) (b : Bot) : Bot :=
  {| clock := clock b; scanning := true; fallbackTimer := fallbackTimer b;
     inflight := (inflight b ++ [who])%list; debounceTimer := debounceTimer b;
     lastScanAt := lastScanAt b; swapEventCount := swapEventCount b;
     triggeredScans := triggeredScans b |}.

(** [scanAndTrade()] from its last [await] on: the flag is cleared, and the
    caller goes on; the fallback callback re-arms its timer. *)
Definition scanAndTrade_returns (i : nat) (who : origin) (b : Bot) : Bot :=
  let b' := {| clock := clock b; scanning := false;
               fallbackTimer := fallbackTimer b;
               inflight := (take i (inflight b) ++ drop (S i) (inflight b))%list;
               debounceTimer := debounceTimer b;
               lastScanAt := lastScanAt b; swapEventCount := swapEventCount b;
               triggeredScans := triggeredScans b |} in
  match who with
  | Fallback => _resetFallbackTimer b'
  | _ => b'
  end.

(** [_onSwapEvent(dex)] *)
Definition _onSwapEvent (b : Bot) : Bot :=
  if scanning b then b
  else scanAndTrade_begins Push (_resetFallbackTimer b).

(** [WSMonitor._onLogs(dexName, logResult)] without [logResult.err] *)
Definition _onLogs (dexName : string) (b : Bot) : Bot :=
  {| clock := clock b; scanning := scanning b; fallbackTimer := fallbackTimer b;
     inflight := inflight b;
     debounceTimer := Some (clock b + DEBOUNCE_MS, dexName);
     lastScanAt := lastScanAt b; swapEventCount := S (swapEventCount b);
     triggeredScans := triggeredScans b |}.

(** The callback of the debounce timer. *)
Definition debounce_callback (b : Bot) : Bot :=
  let b := {| clock := clock b; scanning := scanning b;
              fallbackTimer := fallbackTimer b; inflight := inflight b;
              debounceTimer := None;
              lastScanAt := lastScanAt b; swapEventCount := swapEventCount b;
              triggeredScans := triggeredScans b |} in
  if clock b - lastScanAt b <? MIN_SCAN_INTERVAL_MS then b
  else
    _onSwapEvent
      {| clock := clock b; scanning := scanning b;
         fallbackTimer := fallbackTimer b; inflight := inflight b;
         debounceTimer := debounceTimer b;
         lastScanAt := clock b; swapEventCount := swapEventCount b;
         triggeredScans := S (triggeredScans b) |}.

(** The callback of the fallback timer, up to its [await]. *)
Definition fallback_callback (b : Bot) : Bot :=
  scanAndTrade_begins Fallback
    {| clock := clock b; scanning := scanning b; fallbackTimer := None;
       inflight := inflight b; debounceTimer := debounceTimer b;
       lastScanAt := lastScanAt b; swapEventCount := swapEventCount b;
       triggeredScans := triggeredScans b |}.

(** One callback run at time [t]; [None] when it cannot run then: time
    does not go back, a timer does not fire before its deadline, and only
    calls in flight return. *)
Definition step (b : Bot) (t : Z) (e : event) : option Bot :=
  if t <? clock b then None
  else
    let b := at_time b t in
    match e with
    | Logs dexName => Some (_onLogs dexName b)
    | DebounceFires =>
        match debounceTimer b with
        | Some (d, _) => if d <=? t then Some (debounce_callback b) else None
        | None => None
        end
    | FallbackFires =>
        match fallbackTimer b with
        | Some d => if d <=? t then Some (fallback_callback b) else None
        | None => None
        end
    | ScanReturns i =>
        match inflight b !! i with
        | Some who => Some (scanAndTrade_returns i who b)
        | None => None
        end
    end.

Fixpoint run (b : Bot) (trace : list (Z * event)) : option Bot :=
  match trace with
  | [] => Some b
  | (t, e) :: rest =>
      match step b t e with
      | Some b' => run b' rest
      | None => None
      end
  end.

(** [start()] at time [t0], up to the [await] of the initial scan: the
    fallback timer is armed and the boot scan is in flight. *)
Definition start (t0 : Z) : Bot :=
  scanAndTrade_begins Boot
    (_resetFallbackTimer
       {| clock := t0; scanning := false; fallbackTimer := None;
          inflight := []; debounceTimer := None; lastScanAt := 0;
          swapEventCount := 0; triggeredScans := 0 |}).

Definition reachable (b : Bot) : Prop :=
  exists t0 trace, run (start t0) trace = Some b.

End Scheduler.

(* ===================================================================== *)
(** ** Auxiliary definitions for the statements *)
(* ===================================================================== *)

(** A price point with the liquidity and volume of the spec's scenario. *)
Definition scenario_point (venue : string) (p : jsnum) (t : Z) : PricePoint :=
  {| exchange := venue; price := p; timestamp := t;
     liquidity := dec 50000 1; volume24h := dec 10000 1 |}.

(** The spec's scenario: slippage 0.01, minimum profit 0.5%, venue X at 100
    and venue Y at 102, both observed now. *)
Definition scenario_config : Config := config_js (dec 1 100) (dec 5 1000) "".

Definition scenario_prices (now : Z) : list PricePoint :=
  [scenario_point "X" (dec 100 1) now; scenario_point "Y" (dec 102 1) now].

(** Number of pairs [i < j] the two loops of the detector go through. *)
Fixpoint pair_count (prices : list PricePoint) : nat :=
  match prices with
  | [] => 0
  | _ :: rest => length rest + pair_count rest
  end.

(** The pairs of the first [before] rows of the loops, each row's point
    paired with the [after] points from the row of interest on and with
    the points of the rows in between. *)
Fixpoint rows_before (before after : nat) : nat :=
  match before with
  | O => O
  | S n => (n + after) + rows_before n after
  end.

(** The number of the clock reading the loops take for the pair
    [(p1, p2)] of the list [l1 ++ p1 :: l2 ++ p2 :: l3]: the readings are
    counted from 0, one per pair, in loop order. *)
Definition examined_at (l1 l2 l3 : list PricePoint) : nat :=
  rows_before (length l1) (S (length l2 + S (length l3))) + length l2.

(** While no pair has been named best, the best spread is still 0. *)
Definition best_unset (s : Detector.scan) : Prop :=
  String.eqb (Detector.bestPair s) "" = true -> Detector.bestSpread s = Fin 0.

(** "It performs no I/O": the invocation sends nothing out. *)
Definition performs_no_io (cfg : Config) (clk : Detector.clock)
    (prices : list PricePoint) (tokenSymbol : string) : Prop :=
  snd (Detector.findArbitrageOpportunities cfg clk prices tokenSymbol) = [].

(** *** Runs of the engine *)

(** The operations that write to the engine's fields: the public methods,
    the helpers they call, and the head of step 6. *)
Inductive engine_op : Type :=
| OpExecuteTrade (env : Env) (o : TradeOpportunity)
| OpInit (now : Z) (api lamports : option f64)
| OpFetchSolPrice (now : Z) (api : option f64)
| OpRecordLoss (now : Z) (amount : f64)
| OpBookProfit (now : Z) (realProfit : f64)
| OpAutoSell (now : Z) (api : option f64) (quote : option Quote)
             (lamports : option f64) (txId : option string) (symbol : string).

Definition apply_op (cfg : Config) (st : Engine.LiveTrader) (op : engine_op)
  : Engine.LiveTrader :=
  match op with
  | OpExecuteTrade env o => fst (fst (Engine.executeTrade cfg st env o))
  | OpInit now api lamports => Engine.init cfg st now api lamports
  | OpFetchSolPrice now api => fst (Engine._fetchSolPrice st now api)
  | OpRecordLoss now amount => Engine._recordLoss cfg st now amount
  | OpBookProfit now realProfit => Engine.book_profit cfg st now realProfit
  | OpAutoSell now api quote lamports txId symbol =>
      fst (Engine._processAutoSell cfg st now api quote lamports txId symbol)
  end.

Definition run_ops (cfg : Config) (st : Engine.LiveTrader)
    (ops : list engine_op) : Engine.LiveTrader :=
  fold_left (apply_op cfg) ops st.

(** The operations the running bot performs on the engine: [init],
    [executeTrade] and the auto-sell, with the price fetch they share.
    [_recordLoss] is called from step 6 of [executeTrade] only. *)
Definition bot_op (op : engine_op) : bool :=
  match op with
  | OpRecordLoss _ _ | OpBookProfit _ _ => false
  | _ => true
  end.

(** Losses fed to the breaker one after the other, each with the time it
    is recorded at. *)
Definition record_losses (cfg : Config) (st : Engine.LiveTrader)
    (losses : list (Z * f64)) : Engine.LiveTrader :=
  fold_left (fun s l => Engine._recordLoss cfg s (fst l) (snd l)) losses st.

(** The tally a loss recorded at [now] is added to: zero when the reset
    boundary has been reached, else the tally so far. *)
Definition day_start (st : Engine.LiveTrader) (now : Z) : f64 :=
  if Engine._dailyLossReset st <=? now then fzero else Engine._dailyLoss st.

(** The running sum as the engine forms it: one rounded addition per
    loss, in the order of recording. *)
Definition running_total (start : f64) (amounts : list f64) : f64 :=
  fold_left fadd amounts start.

(** The sum of the amounts as rationals, without any rounding. *)
Fixpoint exact_total (amounts : list f64) : option Q :=
  match amounts with
  | [] => Some 0%Q
  | a :: rest =>
      match value a, exact_total rest with
      | Some x, Some y => Some (Qred (x + y))
      | _, _ => None
      end
  end.

(** Successive [executeTrade] calls: the engine at the end, with the
    results and the ways out in call order. *)
Fixpoint run_trades (cfg : Config) (st : Engine.LiveTrader)
    (calls : list (Env * TradeOpportunity))
  : Engine.LiveTrader * list (option Trade.t) * list exit :=
  match calls with
  | [] => (st, [], [])
  | (env, o) :: rest =>
      let '(st', r, _) := Engine.executeTrade cfg st env o in
      let x := snd (Engine.executeTrade_exit cfg st env o) in
      let '(st'', rs, xs) := run_trades cfg st' rest in
      (st'', r :: rs, x :: xs)
  end.

(** *** Sample data *)

Definition sample_config : Config := config_js (dec 4 100) (dec 167 10000) "".

Definition sample_opportunity : TradeOpportunity :=
  {| pair := "RAY/SOL";
     found := {| buyExchange := "Raydium"; sellExchange := "Orca";
                 buyPrice := dec 100 1; sellPrice := dec 105 1;
                 profitPercent := dec 5 1; detectedAt := 1000 |} |}.

(** SOL at 100 USD, one SOL in the wallet, 0.1 SOL buys 5,000,000 raw
    tokens which sell for 0.103 SOL: a quoted profit of 0.30 USD, 3 %. *)
Definition sample_env (now : Z) : Env :=
  {| nowPrice := now;
     solPriceApi := Some (lit 100 1);
     walletLamports := Some (lit 1000000000 1);
     quoteApi := fun inputMint _ _ =>
       if String.eqb inputMint "So11111111111111111111111111111111111111112"
       then Some {| outAmount := lit 5000000 1 |}
       else Some {| outAmount := lit 103000000 1 |} |}.

Definition sample_trader : Engine.LiveTrader :=
  Engine.new_trader sample_config false 0.

(** The sample engine after a loss of 2 USD recorded on its first day. *)
Definition halted_trader : Engine.LiveTrader :=
  Engine._recordLoss sample_config sample_trader 1000 (lit 2 1).

(** Three executions of the sample in a row. *)
Definition sample_failures : list (Env * TradeOpportunity) :=
  [(sample_env 1000, sample_opportunity);
   (sample_env 2000, sample_opportunity);
   (sample_env 3000, sample_opportunity)].

(** Losses of one day whose amounts sum to exactly 2: one, four times
    2^-54, and 1 - 2^-52. *)
Definition tiny_loss : f64 := S754_finite false 4503599627370496 (-106).

Definition sample_exact_losses : list (Z * f64) :=
  [(1000, lit 1 1); (2000, tiny_loss); (3000, tiny_loss); (4000, tiny_loss);
   (5000, tiny_loss); (6000, S754_finite false 9007199254740990 (-53))].

(** The decimal losses 0.60, 0.70 and 0.70 of one day. *)
Definition sample_decimal_losses : list (Z * f64) :=
  [(1000, lit 6 10); (2000, lit 7 10); (3000, lit 7 10)].

(** One DEX answers the probe, the other two have no route; the broad
    source knows a deep pool and a shallow one. *)
Definition sample_prices_env : Prices.Env :=
  {| Prices.nowCheck := 1000; Prices.nowQuote := fun _ => 1000;
     Prices.nowStore := 1000;
     Prices.dexQuote := fun dex _ =>
       if String.eqb dex "Raydium"
       then Some {| Prices.outAmountPresent := true;
                    Prices.tokensOut := dec 2500000 1;
                    Prices.routePlanLength := 1 |}
       else None;
     Prices.dexScreener :=
       Some [ {| exchange := "Orca"; price := dec 21 1; timestamp := 990;
                 liquidity := dec 50000 1; volume24h := dec 10000 1 |};
              {| exchange := "Meteora"; price := dec 22 1; timestamp := 990;
                 liquidity := dec 5000 1; volume24h := dec 10000 1 |} ] |}.

(* ===================================================================== *)
(** ** The scan pipeline ([scanForOpportunities], [scanAndTrade]) *)
(* ===================================================================== *)

Module Pipeline.

(** The outside world while one token is scanned. *)
Record TokenWorld : Type := {
  pricesEnv     : Prices.Env;
  detectorClock : Detector.clock
}.

(** What a scan writes to the console. *)
Inductive scan_io : Type :=
| DetectorLine (line : detector_io)
| ScanError (token error : string).

(** One turn of the loop of [scanForOpportunities] for [token]: fewer than
    two price points skip the token, an exception of the detector is
    caught and logged. *)
Definition scan_token (cfg : Config) (w : TokenWorld) (cache : Prices.Cache)
    (token : string)
  : Prices.Cache * list TradeOpportunity * list scan_io :=
  let '(cache', prices) :=
    Prices.fetchAllPrices cfg cache (pricesEnv w) token in
  if (length prices <? 2)%nat then (cache', [], [])
  else
    let '(r, lines) :=
      Detector.findArbitrageOpportunities cfg (detectorClock w) prices token in
    match r with
    | Returned opps =>
        (cache',
         map (fun o => {| pair := token ++ "/" ++ baseToken cfg; found := o |})
             opps,
         map DetectorLine lines)
    | Threw e =>
        (cache', [], (map DetectorLine lines ++ [ScanError token e])%list)
    end.

(** The loop over the base tokens, the i-th token seeing [world i]. *)
Fixpoint scan_tokens (cfg : Config) (world : nat -> TokenWorld) (i : nat)
    (cache : Prices.Cache) (tokens : list string)
  : Prices.Cache * list TradeOpportunity * list scan_io :=
  match tokens with
  | [] => (cache, [], [])
  | token :: rest =>
      let '(cache1, opps, io) := scan_token cfg (world i) cache token in
      let '(cache2, opps', io') := scan_tokens cfg world (S i) cache1 rest in
      (cache2, (opps ++ opps')%list, (io ++ io')%list)
  end.

(** [scanForOpportunities()], with [monitorPairs] the [config.monitorPairs]
    list. *)
Definition scanForOpportunities (cfg : Config) (monitorPairs : list string)
    (world : nat -> TokenWorld) (cache : Prices.Cache)
  : Prices.Cache * list TradeOpportunity * list scan_io :=
  scan_tokens cfg world 0 cache (map Engine.split_head monitorPairs).

(** The comparator of [scanAndTrade]: [b.profitPercent - a.profitPercent]. *)
Definition by_profit (a b : TradeOpportunity) : jsnum :=
  (profitPercent (found b) - profitPercent (found a))%js.

(** [x] put into a list sorted by [by_profit], behind the entries it does
    not strictly precede. *)
Fixpoint insert_by_profit (x : TradeOpportunity) (l : list TradeOpportunity)
  : list TradeOpportunity :=
  match l with
  | [] => [x]
  | y :: l' =>
      if jlt (by_profit x y) (Fin 0) then x :: y :: l'
      else y :: insert_by_profit x l'
  end.

(** [opportunities.sort((a, b) => b.profitPercent - a.profitPercent)].
    [Array.prototype.sort] is stable; on finite profit percents the
    comparator is consistent and the result is this stable sort. *)
Definition sort_by_profit (l : list TradeOpportunity) : list TradeOpportunity :=
  fold_left (fun acc x => insert_by_profit x acc) l [].

(** The counters and the flag of the bot that [scanAndTrade] writes. *)
Record Session : Type := {
  scanning           : bool;
  opportunitiesFound : nat;
  tradesExecuted     : nat
}.

(** What [scanAndTrade] writes to the ledger and sends to the notifier;
    [T] is the trade record of the trader in use. *)
Inductive pipeline_io (T : Type) : Type :=
| RecordOpportunity (o : TradeOpportunity) (taken : bool)
| SendTrade (t : T).
Arguments RecordOpportunity {T} o taken.
Arguments SendTrade {T} t.

(** A number other than NaN. *)
Definition is_number (x : jsnum) : bool :=
  match x with
  | NaN => false
  | _ => true
  end.

(** Whether [dbQueries.recordOpportunity] takes the object [scanAndTrade]
    passes: its own check wants the three strings non-empty (the
    timestamp is [Date.now()] and the numbers are present), and the
    insert wants the three REAL NOT NULL columns filled, which a NaN,
    bound as NULL, does not do. *)
Definition recordable (o : TradeOpportunity) : bool :=
  negb (String.eqb (pair o) "")
  && negb (String.eqb (buyExchange (found o)) "")
  && negb (String.eqb (sellExchange (found o)) "")
  && is_number (profitPercent (found o))
  && is_number (buyPrice (found o))
  && is_number (sellPrice (found o)).

Section Trader.

(** [this.trader], the paper trader or the live engine: [St] is its state,
    [T] its trade record, and the k-th [executeTrade] of a scan returns a
    record or [null], or raises. *)
Context {St T : Type}.
Variable executeTrade :
  nat -> St -> TradeOpportunity -> St * outcome (option T).

(** The [forEach] that records every opportunity as not taken; [false]
    when [recordOpportunity] raised. *)
Fixpoint record_found (opps : list TradeOpportunity)
  : list (pipeline_io T) * bool :=
  match opps with
  | [] => ([], true)
  | o :: rest =>
      if recordable o then
        let '(io, ok) := record_found rest in
        (RecordOpportunity o false :: io, ok)
      else ([], false)
  end.

(** The loop over the top opportunities from the k-th execution on: the
    trader afterwards, the number of trades returned, what was sent and
    recorded, and [false] when an execution raised. *)
Fixpoint trade_each (k : nat) (st : St) (opps : list TradeOpportunity)
  : St * nat * list (pipeline_io T) * bool :=
  match opps with
  | [] => (st, 0%nat, [], true)
  | o :: rest =>
      match executeTrade k st o with
      | (st1, Threw _) => (st1, 0%nat, [], false)
      | (st1, Returned None) => trade_each (S k) st1 rest
      | (st1, Returned (Some t)) =>
          let '(st2, n, io, ok) := trade_each (S k) st1 rest in
          (st2, S n, SendTrade t :: RecordOpportunity o true :: io, ok)
      end
  end.

(** [scanAndTrade()] once the scan has returned [opps]; the last
    component is [false] when the call raised.  The flag is cleared on the
    two normal ways out only. *)
Definition scanAndTrade (s : Session) (st : St) (opps : list TradeOpportunity)
  : Session * St * list (pipeline_io T) * bool :=
  match opps with
  | [] =>
      ({| scanning := false; opportunitiesFound := opportunitiesFound s;
          tradesExecuted := tradesExecuted s |}, st, [], true)
  | _ :: _ =>
      let found := (opportunitiesFound s + length opps)%nat in
      let '(io, ok) := record_found opps in
      if negb ok then
        ({| scanning := true; opportunitiesFound := found;
            tradesExecuted := tradesExecuted s |}, st, io, false)
      else
        let '(st', n, io', ok') :=
          trade_each 0 st (firstn 3 (sort_by_profit opps)) in
        ({| scanning := negb ok'; opportunitiesFound := found;
            tradesExecuted := (tradesExecuted s + n)%nat |},
         st', (io ++ io')%list, ok')
  end.

End Trader.

(** The live engine as the trader, its k-th execution seeing [envs k]. *)
Definition live_trader (cfg : Config) (envs : nat -> Env)
  : nat -> Engine.LiveTrader -> TradeOpportunity
    -> Engine.LiveTrader * outcome (option Trade.t) :=
  fun k st o =>
    let '(st', r, _) := Engine.executeTrade cfg st (envs k) o in
    (st', Returned r).

End Pipeline.

(* ===================================================================== *)
(** ** Reconnection of the monitor ([ws-monitor.js]) *)
(* ===================================================================== *)

(** [_scheduleReconnect()]: the attempt count afterwards and the delay of
    the retry in milliseconds. *)
Definition _scheduleReconnect (reconnectAttempts : Z) : Z * Z :=
  let attempts := reconnectAttempts + 1 in
  (attempts, Z.min (5000 * attempts) 60000).

(* ===================================================================== *)
(** ** Auxiliary definitions for the further properties *)
(* ===================================================================== *)

(** What holds of every opportunity the loops of the detector push. *)
Definition well_formed (cfg : Config) (prices : list PricePoint)
    (o : Opportunity) : Prop :=
  buyExchange o <> sellExchange o /\
  In (buyExchange o) (map exchange prices) /\
  In (sellExchange o) (map exchange prices) /\
  jge (profitPercent o) (Detector.minThreshold cfg) = true.

(** The scan state with the clock read once more and nothing else done. *)
Definition after_clock_read (s : Detector.scan) : Detector.scan :=
  {| Detector.opportunities := Detector.opportunities s;
     Detector.bestSpread := Detector.bestSpread s;
     Detector.bestPair := Detector.bestPair s;
     Detector.reads := S (Detector.reads s) |}.

(** What [scanAndTrade] does to the outside, by kind. *)
Definition is_SendTrade {T : Type} (e : Pipeline.pipeline_io T) : bool :=
  match e with Pipeline.SendTrade _ => true | _ => false end.

Definition is_record {T : Type} (taken : bool) (e : Pipeline.pipeline_io T)
  : bool :=
  match e with
  | Pipeline.RecordOpportunity _ t => Bool.eqb t taken
  | _ => false
  end.

(** A profit percent that is a number, neither NaN nor infinite. *)
Definition finite_profit (o : TradeOpportunity) : Prop :=
  exists q, profitPercent (found o) = Fin q.

(** [a] is at least as profitable as [b]. *)
Definition at_least_as_profitable (a b : TradeOpportunity) : Prop :=
  jle (profitPercent (found b)) (profitPercent (found a)) = true.

(** The sample opportunity with another profit percent and pair. *)
Definition sample_opportunity_at (p : string) (pct : jsnum)
  : TradeOpportunity :=
  {| pair := p;
     found := {| buyExchange := "Raydium"; sellExchange := "Orca";
                 buyPrice := dec 100 1; sellPrice := dec 105 1;
                 profitPercent := pct; detectedAt := 1000 |} |}.

Definition sample_opportunities : list TradeOpportunity :=
  [sample_opportunity_at "RAY/SOL" (dec 1 1);
   sample_opportunity_at "JUP/SOL" (dec 5 1);
   sample_opportunity_at "BONK/SOL" (dec 3 1);
   sample_opportunity_at "WIF/SOL" (dec 2 1)].

(** An opportunity whose selling venue is the empty string. *)
Definition unnamed_venue_opportunity : TradeOpportunity :=
  {| pair := "RAY/SOL";
     found := {| buyExchange := "Raydium"; sellExchange := "";
                 buyPrice := dec 100 1; sellPrice := dec 105 1;
                 profitPercent := dec 5 1; detectedAt := 1000 |} |}.

Definition sample_session : Pipeline.Session :=
  {| Pipeline.scanning := true; Pipeline.opportunitiesFound := 0;
     Pipeline.tradesExecuted := 0 |}.

(** A trader that takes every second opportunity it is shown and counts
    the ones it has seen. *)
Definition alternating_trader (k : nat) (seen : nat) (o : TradeOpportunity)
  : nat * outcome (option string) :=
  (S seen, Returned (if Nat.even k then Some (pair o) else None)).

(** The times at which a run of callbacks starts a push-triggered scan:
    the debounce callbacks after which one more call is in flight. *)
Fixpoint push_scan_times (b : Scheduler.Bot)
    (trace : list (Z * Scheduler.event)) : list Z :=
  match trace with
  | [] => []
  | (t, e) :: rest =>
      match Scheduler.step b t e with
      | None => []
      | Some b' =>
          let later := push_scan_times b' rest in
          match e with
          | Scheduler.DebounceFires =>
              if (length (Scheduler.inflight b)
                  <? length (Scheduler.inflight b'))%nat
              then t :: later else later
          | _ => later
          end
      end
  end.

Definition is_Logs (e : Scheduler.event) : bool :=
  match e with Scheduler.Logs _ => true | _ => false end.

(** The triggers still to come: one while the debounce timer is armed. *)
Definition pending_triggers (b : Scheduler.Bot) : nat :=
  match Scheduler.debounceTimer b with Some _ => 1 | None => 0 end.

(** What holds of the bot between callbacks. *)
Definition scheduler_inv (b : Scheduler.Bot) : Prop :=
  (Scheduler.fallbackTimer b = None ->
   In Scheduler.Fallback (Scheduler.inflight b)) /\
  (Scheduler.scanning b = true -> Scheduler.inflight b <> []) /\
  (Scheduler.triggeredScans b + pending_triggers b
   <= Scheduler.swapEventCount b)%nat.

(** A run with two scans in flight, one returned, and a push trigger. *)
Definition sample_trace : list (Z * Scheduler.event) :=
  [(180000, Scheduler.FallbackFires); (200000, Scheduler.ScanReturns 0);
   (200100, Scheduler.Logs "Orca"); (200250, Scheduler.DebounceFires)].

(** Three swap events within the debounce window. *)
Definition sample_burst : list (Z * Scheduler.event) :=
  [(1000, Scheduler.Logs "Orca"); (1040, Scheduler.Logs "Raydium AMM");
   (1100, Scheduler.Logs "Meteora")].

(** Every cached result set was stored by [getPrices], which stores what
    the three DEX quotes gave. *)
Definition cache_from_quotes (cache : Prices.Cache) : Prop :=
  forall tok ts ps, cache !! tok = Some (ts, ps) ->
    exists env mint, ps = Prices.quote_all env mint Prices.TARGET_DEXES.

(** The sample world half a second later, with every DEX quoting. *)
Definition sample_prices_env_later : Prices.Env :=
  {| Prices.nowCheck := 1500; Prices.nowQuote := fun _ => 1500;
     Prices.nowStore := 1500;
     Prices.dexQuote := fun _ _ =>
       Some {| Prices.outAmountPresent := true;
               Prices.tokensOut := dec 2000000 1;
               Prices.routePlanLength := 2 |};
     Prices.dexScreener := None |}.

(** The fields of the engine that only the breaker and the sell loop
    write. *)
Definition breaker_and_counts (st : Engine.LiveTrader)
  : f64 * Z * bool * gmap string nat :=
  (Engine._dailyLoss st, Engine._dailyLossReset st, Engine._halted st,
   Engine._sellFailureCounts st).

(* ===================================================================== *)
(** ** Properties of the number model *)
(* ===================================================================== *)

Section NumLemmas.

Lemma fin_ext (a b : Q) : (a == b)%Q -> fin a = fin b.
Proof. intros H. unfold fin. f_equal. now apply Qred_complete. Qed.

Lemma Qeq_bool_Qred_l (a b : Q) : Qeq_bool (Qred a) b = Qeq_bool a b.
Proof. now rewrite (Qred_correct a). Qed.

Lemma Qle_bool_Qred_l (a b : Q) : Qle_bool (Qred a) b = Qle_bool a b.
Proof. now rewrite (Qred_correct a). Qed.

Lemma Qle_bool_Qred_r (a b : Q) : Qle_bool a (Qred b) = Qle_bool a b.
Proof. now rewrite (Qred_correct b). Qed.

Lemma Qeq_bool_false (a b : Q) : ~ (a == b)%Q -> Qeq_bool a b = false.
Proof.
  intros H. destruct (Qeq_bool a b) eqn:E; [|reflexivity].
  exfalso. apply H. now apply Qeq_bool_eq.
Qed.

End NumLemmas.

(* ===================================================================== *)
(** ** Properties of the detector *)
(* ===================================================================== *)

Module DetectorProps.
Import Detector.

(** With [discoverySlippage] undefined, [1 + undefined] is NaN, NaN is
    falsy, and both prices are multiplied by the slippage tolerance
    itself. *)
Lemma slippage_factor_undefined (cfg : Config) (x : jsnum) :
  discoverySlippage cfg = None ->
  buyPriceWithSlippage cfg x = (x * slippageTolerance cfg)%js /\
  sellPriceWithSlippage cfg x = (x * slippageTolerance cfg)%js.
Proof.
  intros H. unfold buyPriceWithSlippage, sellPriceWithSlippage.
  rewrite H. split; reflexivity.
Qed.

(** Had the key been defined, the factors would be [1 + d] and [1 - d]. *)
Lemma slippage_factor_defined (cfg : Config) (x d : jsnum) :
  discoverySlippage cfg = Some d ->
  truthy (dec 1 1 + d)%js = true -> truthy (dec 1 1 - d)%js = true ->
  buyPriceWithSlippage cfg x = (x * (dec 1 1 + d))%js /\
  sellPriceWithSlippage cfg x = (x * (dec 1 1 - d))%js.
Proof.
  intros H Hb Hs. unfold buyPriceWithSlippage, sellPriceWithSlippage, jor.
  rewrite H. cbn [to_number]. now rewrite Hb, Hs.
Qed.

(** The common factor cancels: the adjusted profit percent is the raw
    spread, whatever the slippage tolerance. *)
Lemma adjusted_is_raw (cfg : Config) (b s t : Q) :
  discoverySlippage cfg = None ->
  slippageTolerance cfg = Fin t ->
  ~ (t == 0)%Q -> ~ (b == 0)%Q ->
  adjustedProfitPercent cfg (Fin b) (Fin s) = rawSpread (Fin b) (Fin s).
Proof.
  intros Hd Ht Hnz Hb.
  unfold adjustedProfitPercent, rawSpread.
  destruct (slippage_factor_undefined cfg (Fin b) Hd) as [-> _].
  destruct (slippage_factor_undefined cfg (Fin s) Hd) as [_ ->].
  rewrite Ht. cbn [jmul jsub jadd jneg jdiv fin].
  rewrite !Qeq_bool_Qred_l.
  rewrite (Qeq_bool_false b 0 Hb).
  rewrite (Qeq_bool_false (b * t) 0).
  2:{ intros H. apply Qmult_integral in H. tauto. }
  unfold dec. cbn [jmul fin]. apply fin_ext.
  rewrite !Qred_correct. field. tauto.
Qed.

(** C2: on the spec's scenario (X at 100, Y at 102, slippage 0.01, minimum
    profit 0.5%) the detector does not compute 101 and 100.98: it
    multiplies both prices by the tolerance, gets the buy price 1, the sell
    price 1.02 and the profit 2%, and emits the opportunity. *)
Theorem scenario_emits_opportunity (now : Z) :
  buyPriceWithSlippage scenario_config (dec 100 1) = dec 1 1 /\
  sellPriceWithSlippage scenario_config (dec 102 1) = dec 102 100 /\
  fst (findArbitrageOpportunities scenario_config (fun _ => now)
         (scenario_prices now) "RAY")
  = Returned
      [ {| buyExchange := "X"; sellExchange := "Y";
           buyPrice := dec 1 1; sellPrice := dec 102 100;
           profitPercent := dec 2 1; detectedAt := now |} ].
Proof.
  split; [reflexivity|]. split; [reflexivity|].
  unfold findArbitrageOpportunities, scenario_prices.
  cbn [outer_loop inner_loop]. unfold pair_step.
  cbn [reads scan0 timestamp scenario_point].
  rewrite Z.sub_diag. reflexivity.
Qed.

(** C8: with the raw prices 100 and 102 fixed, the profit percent is 2
    under slippage 0.01 and 2 again under slippage 0.02: raising the
    slippage does not lower it. *)
Theorem profit_percent_not_decreasing_in_slippage :
  adjustedProfitPercent (config_js (dec 1 100) (dec 5 1000) "")
    (dec 100 1) (dec 102 1) = dec 2 1 /\
  adjustedProfitPercent (config_js (dec 2 100) (dec 5 1000) "")
    (dec 100 1) (dec 102 1) = dec 2 1 /\
  jlt (adjustedProfitPercent (config_js (dec 2 100) (dec 5 1000) "")
         (dec 100 1) (dec 102 1))
      (adjustedProfitPercent (config_js (dec 1 100) (dec 5 1000) "")
         (dec 100 1) (dec 102 1)) = false.
Proof. repeat split; reflexivity. Qed.

Lemma pair_step_reads cfg clk p1 p2 s :
  reads (pair_step cfg clk p1 p2 s) = S (reads s).
Proof.
  unfold pair_step. cbn [reads opportunities bestSpread bestPair].
  repeat match goal with
         | |- context [if ?c then _ else _] => destruct c
         | |- context [let '(_, _) := ?p in _] => destruct p
         end; reflexivity.
Qed.

Lemma pair_step_clock cfg clk1 clk2 p1 p2 s :
  clk1 (reads s) = clk2 (reads s) ->
  pair_step cfg clk1 p1 p2 s = pair_step cfg clk2 p1 p2 s.
Proof. intros H. unfold pair_step. now rewrite H. Qed.

Lemma inner_loop_reads cfg clk p1 rest : forall s,
  reads (inner_loop cfg clk p1 rest s) = (reads s + length rest)%nat.
Proof.
  induction rest as [|p2 rest IH]; intros s; cbn [inner_loop length].
  - lia.
  - rewrite IH, pair_step_reads. lia.
Qed.

Lemma inner_loop_clock cfg clk1 clk2 p1 rest : forall s,
  (forall k, (reads s <= k < reads s + length rest)%nat -> clk1 k = clk2 k) ->
  inner_loop cfg clk1 p1 rest s = inner_loop cfg clk2 p1 rest s.
Proof.
  induction rest as [|p2 rest IH]; intros s H; cbn [inner_loop]; [reflexivity|].
  cbn [length] in H.
  rewrite (pair_step_clock cfg clk1 clk2) by (apply H; lia).
  apply IH. intros k Hk. rewrite pair_step_reads in Hk. apply H. lia.
Qed.

Lemma outer_loop_clock cfg clk1 clk2 prices : forall s,
  (forall k, (reads s <= k < reads s + pair_count prices)%nat -> clk1 k = clk2 k) ->
  outer_loop cfg clk1 prices s = outer_loop cfg clk2 prices s.
Proof.
  induction prices as [|p1 rest IH]; intros s H; cbn [outer_loop]; [reflexivity|].
  cbn [pair_count] in H.
  rewrite (inner_loop_clock cfg clk1 clk2) by (intros k Hk; apply H; lia).
  apply IH. intros k Hk. rewrite inner_loop_reads in Hk. apply H. lia.
Qed.

Lemma arrow_nonempty (a b : string) :
  String.eqb (a ++ "→" ++ b)%string "" = false.
Proof. destruct a; reflexivity. Qed.

Lemma pair_step_bestPair cfg clk p1 p2 s :
  String.eqb (bestPair s) "" = false ->
  String.eqb (bestPair (pair_step cfg clk p1 p2 s)) "" = false.
Proof.
  intros H. unfold pair_step. cbn [reads opportunities bestSpread bestPair].
  destruct (_ || _)%bool; [exact H|].
  destruct (String.eqb (exchange p1) (exchange p2)); [exact H|].
  destruct (jgt _ _); cbn [bestPair]; [apply arrow_nonempty | exact H].
Qed.

Lemma inner_loop_bestPair cfg clk p1 rest : forall s,
  String.eqb (bestPair s) "" = false ->
  String.eqb (bestPair (inner_loop cfg clk p1 rest s)) "" = false.
Proof.
  induction rest as [|p2 rest IH]; intros s H; cbn [inner_loop]; [exact H|].
  apply IH. now apply pair_step_bestPair.
Qed.

Lemma outer_loop_bestPair cfg clk prices : forall s,
  String.eqb (bestPair s) "" = false ->
  String.eqb (bestPair (outer_loop cfg clk prices s)) "" = false.
Proof.
  induction prices as [|p1 rest IH]; intros s H; cbn [outer_loop]; [exact H|].
  apply IH. now apply inner_loop_bestPair.
Qed.

Lemma rawSpread_positive (a b : Q) :
  (0 < a)%Q -> (a < b)%Q -> jgt (rawSpread (Fin a) (Fin b)) (Fin 0) = true.
Proof.
  intros Ha Hab. unfold rawSpread, jgt, dec.
  cbn [jsub jadd jneg jdiv jmul fin].
  rewrite Qeq_bool_false by (intros H; rewrite H in Ha; now apply Qlt_irrefl in Ha).
  cbn [jmul jlt fin]. unfold Qltb. rewrite Qle_bool_Qred_l.
  destruct (Qle_bool _ 0) eqn:E; [|reflexivity].
  apply Qle_bool_imp_le in E. rewrite !Qred_correct in E.
  exfalso.
  assert (H1 : (0 < b + - a)%Q) by lra.
  assert (H2 : (0 < / a)%Q) by now apply Qinv_lt_0_compat.
  assert (H3 : (0 < (b + - a) / a)%Q) by (unfold Qdiv; now apply Qmult_lt_0_compat).
  assert (H4 : (0 < (b + - a) / a * 100)%Q).
  { apply Qmult_lt_0_compat; [exact H3 | reflexivity]. }
  change (Qred (100 # 1)) with 100%Q in E. lra.
Qed.

Lemma pair_step_best_unset cfg clk p1 p2 s :
  best_unset s -> best_unset (pair_step cfg clk p1 p2 s).
Proof.
  intros H. unfold best_unset, pair_step.
  cbn [reads opportunities bestSpread bestPair].
  destruct (_ || _)%bool; [exact H|].
  destruct (String.eqb (exchange p1) (exchange p2)); [exact H|].
  destruct (jgt _ _); cbn [bestPair bestSpread]; [|exact H].
  rewrite arrow_nonempty. discriminate.
Qed.

Lemma inner_loop_best_unset cfg clk p1 rest : forall s,
  best_unset s -> best_unset (inner_loop cfg clk p1 rest s).
Proof.
  induction rest as [|p2 rest IH]; intros s H; cbn [inner_loop]; [exact H|].
  apply IH. now apply pair_step_best_unset.
Qed.

Lemma inner_loop_app cfg clk p1 l2 l3 s :
  inner_loop cfg clk p1 (l2 ++ l3) s
  = inner_loop cfg clk p1 l3 (inner_loop cfg clk p1 l2 s).
Proof.
  revert s. induction l2 as [|x l2 IH]; intros s; [reflexivity|].
  cbn [app inner_loop]. apply IH.
Qed.

(** The loops before the row of [p1]: the state is still such that an
    unset best pair means a best spread of 0, and the clock has been read
    once per pair. *)
Lemma rows_before_tail cfg clk l1 tail : forall s,
  best_unset s ->
  exists s1,
    outer_loop cfg clk (l1 ++ tail) s = outer_loop cfg clk tail s1 /\
    best_unset s1 /\
    reads s1 = (reads s + rows_before (length l1) (length tail))%nat.
Proof.
  induction l1 as [|x l1 IH]; intros s H.
  - exists s. cbn. repeat split; [exact H | lia].
  - cbn [app outer_loop length rows_before].
    destruct (IH (inner_loop cfg clk x (l1 ++ tail) s)) as (s1 & E & I & R).
    { now apply inner_loop_best_unset. }
    exists s1. split; [exact E|]. split; [exact I|].
    rewrite R, inner_loop_reads, List.length_app. lia.
Qed.

(** A fresh pair on two venues at different positive prices names a best
    pair, whatever was seen before. *)
Lemma fresh_pair_sets_bestPair cfg clk p1 p2 s (a b : Q) :
  best_unset s ->
  clk (reads s) - timestamp p1 <= 10000 ->
  clk (reads s) - timestamp p2 <= 10000 ->
  exchange p1 <> exchange p2 ->
  price p1 = Fin a -> price p2 = Fin b ->
  (0 < a)%Q -> (0 < b)%Q -> ~ (a == b)%Q ->
  String.eqb (bestPair (pair_step cfg clk p1 p2 s)) "" = false.
Proof.
  intros I F1 F2 Hex Ha Hb Pa Pb Hne.
  destruct (String.eqb (bestPair s) "") eqn:Eb;
    [|now apply pair_step_bestPair].
  unfold pair_step. cbn [reads opportunities bestSpread bestPair].
  replace (clk (reads s) - timestamp p1 >? 10000) with false
    by (symmetry; rewrite Z.gtb_ltb; apply Z.ltb_ge; lia).
  replace (clk (reads s) - timestamp p2 >? 10000) with false
    by (symmetry; rewrite Z.gtb_ltb; apply Z.ltb_ge; lia).
  cbn [orb].
  replace (String.eqb (exchange p1) (exchange p2)) with false
    by (symmetry; now apply String.eqb_neq).
  rewrite (I Eb), Ha, Hb. cbn [jmin jmax jle].
  destruct (Qle_bool a b) eqn:E.
  - apply Qle_bool_imp_le in E.
    rewrite rawSpread_positive; [apply arrow_nonempty | exact Pa |].
    apply Qle_lt_or_eq in E. tauto.
  - assert (Hlt : (b < a)%Q).
    { apply Qnot_le_lt. intros H. apply Qle_bool_iff in H. congruence. }
    rewrite rawSpread_positive; [apply arrow_nonempty | exact Pb | exact Hlt].
Qed.

(** C9 (as amended): the outcome of [findArbitrageOpportunities] is fixed by
    the price list, the configuration and the clock readings taken for the
    pairs it examines, and the token symbol does not enter the returned
    list; but the function does write to the console: whenever some pair
    of points, wherever it stands in the list, is fresh at the clock
    reading taken for it, on two venues and at different positive prices,
    a best-spread line is written. *)
Theorem detector_deterministic_but_logs (cfg : Config) (clk1 clk2 : clock)
    (prices : list PricePoint) (tok tok' : string) :
  (forall k, (k < pair_count prices)%nat -> clk1 k = clk2 k) ->
  findArbitrageOpportunities cfg clk1 prices tok
    = findArbitrageOpportunities cfg clk2 prices tok
  /\ fst (findArbitrageOpportunities cfg clk1 prices tok')
     = fst (findArbitrageOpportunities cfg clk1 prices tok)
  /\ (forall l1 p1 l2 p2 l3 (a b : Q),
        prices = (l1 ++ p1 :: l2 ++ p2 :: l3)%list ->
        clk1 (examined_at l1 l2 l3) - timestamp p1 <= 10000 ->
        clk1 (examined_at l1 l2 l3) - timestamp p2 <= 10000 ->
        exchange p1 <> exchange p2 ->
        price p1 = Fin a -> price p2 = Fin b ->
        (0 < a)%Q -> (0 < b)%Q -> ~ (a == b)%Q ->
        ~ performs_no_io cfg clk1 prices tok).
Proof.
  intros Hclk. split; [|split].
  - unfold findArbitrageOpportunities.
    rewrite (outer_loop_clock cfg clk1 clk2 prices scan0); [reflexivity|].
    intros k Hk. apply Hclk. cbn [reads scan0] in Hk. lia.
  - unfold findArbitrageOpportunities.
    destruct (String.eqb _ ""); [reflexivity|].
    destruct (_ && _)%bool; reflexivity.
  - intros l1 p1 l2 p2 l3 a b -> F1 F2 Hex Ha Hb Pa Pb Hne.
    unfold performs_no_io, findArbitrageOpportunities.
    destruct (rows_before_tail cfg clk1 l1 (p1 :: l2 ++ p2 :: l3) scan0)
      as (s1 & E & I & R); [intros _; reflexivity|].
    rewrite E. cbn [outer_loop].
    rewrite inner_loop_app. cbn [inner_loop].
    rewrite outer_loop_bestPair.
    + destruct (_ && _)%bool; discriminate.
    + apply inner_loop_bestPair.
      assert (Hk : reads (inner_loop cfg clk1 p1 l2 s1)
                   = examined_at l1 l2 l3).
      { rewrite inner_loop_reads, R. unfold examined_at.
        cbn [reads scan0 length]. rewrite List.length_app. cbn [length].
        lia. }
      apply (fresh_pair_sets_bestPair cfg clk1 p1 p2 _ a b);
        rewrite ?Hk; try assumption.
      now apply inner_loop_best_unset.
Qed.

Lemma detector_deterministic_but_logs_witness :
  (forall k, (k < pair_count (scenario_prices 1000))%nat ->
             (fun _ : nat => 1000) k = (fun n : nat => if (n =? 0)%nat then 1000 else 5000) k)
  /\ findArbitrageOpportunities scenario_config (fun _ => 1000)
       (scenario_prices 1000) "RAY"
     = findArbitrageOpportunities scenario_config
         (fun n => if (n =? 0)%nat then 1000 else 5000)
         (scenario_prices 1000) "RAY".
Proof.
  assert (H : forall k, (k < pair_count (scenario_prices 1000))%nat ->
             (fun _ : nat => 1000) k = (fun n : nat => if (n =? 0)%nat then 1000 else 5000) k).
  { intros k Hk. cbn in Hk. destruct k; [reflexivity | lia]. }
  split; [exact H|].
  exact (proj1 (detector_deterministic_but_logs scenario_config _ _
                  (scenario_prices 1000) "RAY" "BONK" H)).
Defined.

Lemma detector_writes_console :
  ~ performs_no_io scenario_config (fun _ => 1000) (scenario_prices 1000) "RAY".
Proof. unfold performs_no_io. vm_compute. discriminate. Qed.
End DetectorProps.

(* ===================================================================== *)
(** ** Properties of the execution engine *)
(* ===================================================================== *)

Module EngineProps.
Import Engine.

(** *** What each helper leaves untouched *)

Lemma fetchSolPrice_frame st now api :
  let st' := fst (_fetchSolPrice st now api) in
  dryRun st' = dryRun st /\ balance st' = balance st /\
  _dailyLoss st' = _dailyLoss st /\ _dailyLossReset st' = _dailyLossReset st /\
  _halted st' = _halted st /\ _sellFailureCounts st' = _sellFailureCounts st /\
  _failureThreshold st' = _failureThreshold st /\
  _raisedMinProfitPct st' = _raisedMinProfitPct st.
Proof.
  unfold _fetchSolPrice.
  destruct (match _solPriceUsd st with Some _ => _ | None => _ end);
    [cbn; tauto|].
  destruct api; cbn; tauto.
Qed.

Lemma recordLoss_frame cfg st now amount :
  let st' := _recordLoss cfg st now amount in
  dryRun st' = dryRun st /\ balance st' = balance st /\
  _sellFailureCounts st' = _sellFailureCounts st /\
  _failureThreshold st' = _failureThreshold st /\
  _raisedMinProfitPct st' = _raisedMinProfitPct st.
Proof.
  unfold _recordLoss. destruct (_dailyLossReset st <=? now); cbn; tauto.
Qed.

Lemma recordLoss_keeps_halted cfg st now amount :
  _halted st = true -> _halted (_recordLoss cfg st now amount) = true.
Proof.
  intros H. unfold _recordLoss.
  destruct (_dailyLossReset st <=? now); cbn; rewrite H;
    now destruct (fge _ _).
Qed.

(** Every way out of [executeTrade] leaves the engine as it was, but for
    the SOL price cache. *)
Lemma executeTrade_exit_frame cfg st env o :
  let st' := fst (executeTrade_exit cfg st env o) in
  dryRun st' = dryRun st /\ balance st' = balance st /\
  _dailyLoss st' = _dailyLoss st /\ _dailyLossReset st' = _dailyLossReset st /\
  _halted st' = _halted st /\ _sellFailureCounts st' = _sellFailureCounts st /\
  _failureThreshold st' = _failureThreshold st /\
  _raisedMinProfitPct st' = _raisedMinProfitPct st.
Proof.
  unfold executeTrade_exit.
  destruct (_halted st) eqn:Hh; [cbn; rewrite Hh; tauto|].
  destruct (feq _ _); [cbn; rewrite Hh; tauto|].
  pose proof (fetchSolPrice_frame st (nowPrice env) (solPriceApi env)) as F.
  cbn zeta in F.
  destruct (_fetchSolPrice st (nowPrice env) (solPriceApi env)) as [st1 p].
  cbn [fst] in *. rewrite <- Hh. exact F.
Qed.

Lemma executeTrade_state cfg st env o :
  fst (fst (executeTrade cfg st env o)) = fst (executeTrade_exit cfg st env o).
Proof.
  unfold executeTrade. now destruct (executeTrade_exit cfg st env o).
Qed.

(** [executeTrade] returns [null] and sends nothing, on every input. *)
Lemma executeTrade_returns_null cfg st env o :
  executeTrade cfg st env o
  = (fst (executeTrade_exit cfg st env o), None, []).
Proof.
  unfold executeTrade. now destruct (executeTrade_exit cfg st env o).
Qed.

Lemma executeTrade_halted cfg st env o :
  _halted st = true -> executeTrade cfg st env o = (st, None, []).
Proof.
  intros H. unfold executeTrade, executeTrade_exit. now rewrite H.
Qed.

Lemma book_profit_keeps_halted cfg st now p :
  _halted st = true -> _halted (book_profit cfg st now p) = true.
Proof.
  intros H. unfold book_profit.
  destruct (flt p fzero); [|exact H].
  apply recordLoss_keeps_halted. exact H.
Qed.

Lemma init_keeps_halted cfg st now api lamports :
  _halted (init cfg st now api lamports) = _halted st.
Proof.
  unfold init.
  pose proof (fetchSolPrice_frame st now api) as F. cbn zeta in F.
  destruct (_fetchSolPrice st now api) as [st1 p]. cbn [fst] in F.
  destruct lamports; cbn; tauto.
Qed.

Lemma processAutoSell_keeps_halted cfg st now api quote lamports txId symbol :
  _halted (fst (_processAutoSell cfg st now api quote lamports txId symbol))
  = _halted st.
Proof.
  unfold _processAutoSell. destruct quote as [q|]; [|reflexivity].
  destruct (dryRun st); [reflexivity|].
  pose proof (fetchSolPrice_frame st now api) as F. cbn zeta in F.
  destruct (_fetchSolPrice st now api) as [st1 p]. cbn [fst] in F.
  destruct lamports as [l|]; [|cbn; tauto].
  destruct (flt _ _); [cbn; tauto|].
  destruct (Trade.present txId); [|cbn; tauto].
  destruct (_ =? _)%nat; cbn; tauto.
Qed.

Lemma apply_op_keeps_halted cfg st op :
  _halted st = true -> _halted (apply_op cfg st op) = true.
Proof.
  intros H. destruct op; cbn [apply_op].
  - now rewrite executeTrade_halted.
  - now rewrite init_keeps_halted.
  - now rewrite (proj1 (proj2 (proj2 (proj2 (proj2 (fetchSolPrice_frame st now api)))))).
  - now apply recordLoss_keeps_halted.
  - now apply book_profit_keeps_halted.
  - now rewrite processAutoSell_keeps_halted.
Qed.

Lemma run_ops_keeps_halted cfg ops : forall st,
  _halted st = true -> _halted (run_ops cfg st ops) = true.
Proof.
  induction ops as [|op ops IH]; intros st H; [exact H|].
  cbn [run_ops fold_left]. apply IH. now apply apply_op_keeps_halted.
Qed.

(** *** The circuit breaker *)

(** One recorded loss: the tally it is added to, the boundary afterwards,
    and the flag. *)
Lemma recordLoss_tally cfg st now a :
  _dailyLoss (_recordLoss cfg st now a) = fadd (day_start st now) a /\
  (now < _dailyLossReset st ->
   _dailyLossReset (_recordLoss cfg st now a) = _dailyLossReset st) /\
  _halted (_recordLoss cfg st now a)
  = (fge (_dailyLoss (_recordLoss cfg st now a)) (of_js (maxDailyLossUsd cfg))
     || _halted st).
Proof.
  unfold _recordLoss, day_start.
  destruct (_dailyLossReset st <=? now) eqn:E;
    cbn [set_breaker _dailyLoss _dailyLossReset _halted].
  - split; [reflexivity|]. split; [intros H; apply Z.leb_le in E; lia|].
    now destruct (fge _ _).
  - split; [reflexivity|]. split; [reflexivity|]. now destruct (fge _ _).
Qed.

Lemma record_losses_same_day cfg rest : forall st,
  Forall (fun l => fst l < _dailyLossReset st) rest ->
  _dailyLoss (record_losses cfg st rest)
  = running_total (_dailyLoss st) (map snd rest).
Proof.
  induction rest as [|[t a] rest IH]; intros st Hday; [reflexivity|].
  apply List.Forall_cons_iff in Hday as [Ht Hday]. cbn [fst] in Ht.
  destruct (recordLoss_tally cfg st t a) as (Hl & Hr & _).
  unfold record_losses. cbn [fold_left fst snd map running_total].
  change (fold_left _ rest ?s) with (record_losses cfg s rest).
  rewrite IH by (rewrite (Hr Ht); exact Hday).
  rewrite Hl. unfold day_start.
  replace (_dailyLossReset st <=? t) with false
    by (symmetry; apply Z.leb_gt; exact Ht).
  reflexivity.
Qed.

Lemma record_losses_last cfg losses : forall st,
  losses <> [] ->
  fge (_dailyLoss (record_losses cfg st losses)) (of_js (maxDailyLossUsd cfg))
  = true ->
  _halted (record_losses cfg st losses) = true.
Proof.
  induction losses as [|[t a] rest IH]; intros st Hne Hge; [congruence|].
  unfold record_losses in *. cbn [fold_left fst snd] in *.
  destruct rest as [|l rest].
  - cbn [fold_left] in *.
    destruct (recordLoss_tally cfg st t a) as (_ & _ & Hh).
    rewrite Hh, Hge. reflexivity.
  - apply IH; [discriminate | exact Hge].
Qed.

(** C6 (as amended): losses recorded within one UTC day, the first one
    restarting the tally when it is the first of a new day, whose running
    binary64 total is at or above the daily-loss limit, and so also
    exactly at it, set [_halted]; after that no operation of the engine,
    placed at any time and also the booking of a positive profit, clears
    it. *)
Theorem breaker_latches_at_exact_limit (cfg : Config) (st : LiveTrader)
    (t1 : Z) (a1 : f64) (rest : list (Z * f64)) (ops : list engine_op) :
  Forall (fun l => fst l < _dailyLossReset (_recordLoss cfg st t1 a1)) rest ->
  fge (running_total (day_start st t1) (a1 :: map snd rest))
      (of_js (maxDailyLossUsd cfg)) = true ->
  _halted (record_losses cfg st ((t1, a1) :: rest)) = true /\
  _halted (run_ops cfg (record_losses cfg st ((t1, a1) :: rest)) ops) = true.
Proof.
  intros Hday Hsum.
  assert (H : _halted (record_losses cfg st ((t1, a1) :: rest)) = true).
  { apply record_losses_last; [discriminate|].
    unfold record_losses. cbn [fold_left fst snd].
    change (fold_left _ rest ?s) with (record_losses cfg s rest).
    rewrite (record_losses_same_day cfg rest _ Hday).
    destruct (recordLoss_tally cfg st t1 a1) as (-> & _ & _).
    exact Hsum. }
  split; [exact H|]. now apply run_ops_keeps_halted.
Qed.

Lemma breaker_latches_at_exact_limit_witness :
  _halted (record_losses sample_config sample_trader
             [(1000, lit 1 2); (2000, lit 3 2)]) = true /\
  _halted (run_ops sample_config
             (record_losses sample_config sample_trader
                [(1000, lit 1 2); (2000, lit 3 2)])
             [OpBookProfit 3000 (lit 3 10);
              OpExecuteTrade (sample_env 90000000) sample_opportunity;
              OpRecordLoss 90000001 (lit 1 10)]) = true.
Proof.
  apply (breaker_latches_at_exact_limit sample_config sample_trader
           1000 (lit 1 2) [(2000, lit 3 2)]).
  - repeat constructor.
  - vm_compute. reflexivity.
Defined.

(** C6, against the reading that the losses are summed exactly: six
    losses of one day whose amounts sum to exactly 2, the limit, leave the
    engine's tally at 2 - 2^-52 and the breaker open; so do the decimal
    losses 0.60, 0.70 and 0.70. *)
Lemma exact_sum_at_limit_not_halted :
  Forall (fun l => fst l < _dailyLossReset sample_trader) sample_exact_losses /\
  exact_total (map snd sample_exact_losses) = Some 2%Q /\
  value (of_js (maxDailyLossUsd sample_config)) = Some 2%Q /\
  _dailyLoss (record_losses sample_config sample_trader sample_exact_losses)
  = S754_finite false 9007199254740991 (-52) /\
  _halted (record_losses sample_config sample_trader sample_exact_losses)
  = false /\
  Forall (fun l => fst l < _dailyLossReset sample_trader)
    sample_decimal_losses /\
  _halted (record_losses sample_config sample_trader sample_decimal_losses)
  = false.
Proof.
  split; [repeat constructor|].
  split; [vm_compute; reflexivity|].
  split; [vm_compute; reflexivity|].
  split; [vm_compute; reflexivity|].
  split; [vm_compute; reflexivity|].
  split; [repeat constructor | vm_compute; reflexivity].
Qed.

(** C3 (as amended): once [_halted] is set, [executeTrade] returns [null]
    and leaves the engine as it is, whatever engine operations came in
    between and at whatever time, the next UTC day included; recording a
    loss never clears the flag; only a newly constructed engine starts with
    the flag cleared. *)
Theorem halted_engine_skips_until_restart (cfg : Config) (st : LiveTrader)
    (ops : list engine_op) (env : Env) (o : TradeOpportunity)
    (now : Z) (amount : f64) :
  _halted st = true ->
  executeTrade cfg (run_ops cfg st ops) env o = (run_ops cfg st ops, None, [])
  /\ _halted (_recordLoss cfg (run_ops cfg st ops) now amount) = true
  /\ (forall dry t0, _halted (new_trader cfg dry t0) = false).
Proof.
  intros H.
  pose proof (run_ops_keeps_halted cfg ops st H) as H'.
  split; [now apply executeTrade_halted|].
  split; [now apply recordLoss_keeps_halted|].
  reflexivity.
Qed.

Lemma halted_engine_skips_until_restart_witness :
  _halted halted_trader = true /\
  executeTrade sample_config
    (run_ops sample_config halted_trader [OpRecordLoss 90000000 (lit 1 10)])
    (sample_env 90000001) sample_opportunity
  = (run_ops sample_config halted_trader [OpRecordLoss 90000000 (lit 1 10)],
     None, []).
Proof.
  assert (H : _halted halted_trader = true) by (vm_compute; reflexivity).
  split; [exact H|].
  exact (proj1 (halted_engine_skips_until_restart sample_config halted_trader
                  [OpRecordLoss 90000000 (lit 1 10)] (sample_env 90000001)
                  sample_opportunity 0 fzero H)).
Defined.

(** C3, against the reading that the next UTC midnight reopens the
    breaker: the engine halted on its first day (reset due at 86,400,000
    ms) still returns [null] by the breaker's way out on the next day,
    with the boundary passed and also with the boundary observed by a
    loss record that restarts the tally at 0.10 USD. *)
Lemma halted_engine_skips_after_midnight :
  let next_day := _recordLoss sample_config halted_trader 90000000 (lit 1 10) in
  _halted halted_trader = true /\
  _dailyLossReset halted_trader = 86400000 /\
  executeTrade sample_config halted_trader (sample_env 90000000)
    sample_opportunity = (halted_trader, None, []) /\
  _dailyLoss next_day = lit 1 10 /\
  _dailyLossReset next_day = 172800000 /\
  executeTrade sample_config next_day (sample_env 90000001) sample_opportunity
    = (next_day, None, []) /\
  executeTrade_exit sample_config next_day (sample_env 90000001)
    sample_opportunity = (next_day, ExitHalted).
Proof. cbv zeta. repeat split; vm_compute; reflexivity. Qed.

(** *** The dry run that is not there *)

Lemma run_trades_frame cfg calls : forall st,
  let st' := fst (fst (run_trades cfg st calls)) in
  balance st' = balance st /\ _halted st' = _halted st /\
  _dailyLoss st' = _dailyLoss st /\
  _sellFailureCounts st' = _sellFailureCounts st /\
  snd (fst (run_trades cfg st calls)) = map (fun _ => None) calls.
Proof.
  induction calls as [|[env o] rest IH]; intros st; cbn zeta;
    [cbn; tauto|].
  cbn [run_trades]. rewrite executeTrade_returns_null.
  pose proof (executeTrade_exit_frame cfg st env o) as F. cbn zeta in F.
  specialize (IH (fst (executeTrade_exit cfg st env o))). cbn zeta in IH.
  destruct (run_trades cfg (fst (executeTrade_exit cfg st env o)) rest)
    as [[st'' rs] xs].
  cbn [fst snd map] in *.
  destruct F as (_ & Fb & Fl & _ & Fh & Fc & _).
  destruct IH as (Ib & Ih & Il & Ic & Ir).
  repeat split; try congruence.
Qed.

(** C5: the engine with the breaker open, a funded wallet and quotes that
    pass the profit check does not return a record without a sell
    transaction when the chain would confirm the buy and refuse every
    sell: it gets as far as the dry run of the buy leg, where the call of
    the missing method raises, and returns [null]; nothing is sent to the
    notifier and the pair's failure count stays at 0. *)
Theorem profitable_execution_returns_null :
  let st' := set_solPrice sample_trader (lit 100 1) 1000 in
  _halted sample_trader = false /\
  executeTrade_exit sample_config sample_trader (sample_env 1000)
    sample_opportunity = (st', ExitFailed (NotAFunction "_simulateSwap")) /\
  executeTrade sample_config sample_trader (sample_env 1000)
    sample_opportunity = (st', None, []) /\
  failures sample_trader "RAY/SOL" = 0%nat /\
  failures st' "RAY/SOL" = 0%nat.
Proof. cbv zeta. repeat split; vm_compute; reflexivity. Qed.

(** C4: on the same execution the engine books nothing: the balance stays
    at the 20 USD it started with although the quotes promise a profit,
    no trade record is returned, and this stays so however often the
    execution is repeated. *)
Theorem profitable_execution_books_nothing :
  balance sample_trader = lit 20 1 /\
  balance (fst (fst (executeTrade sample_config sample_trader
                       (sample_env 1000) sample_opportunity)))
  = lit 20 1 /\
  snd (fst (executeTrade sample_config sample_trader (sample_env 1000)
              sample_opportunity)) = None /\
  (forall calls,
     balance (fst (fst (run_trades sample_config sample_trader calls)))
     = lit 20 1 /\
     snd (fst (run_trades sample_config sample_trader calls))
     = map (fun _ => None) calls).
Proof.
  split; [vm_compute; reflexivity|].
  split; [vm_compute; reflexivity|].
  split; [vm_compute; reflexivity|].
  intros calls.
  destruct (run_trades_frame sample_config calls sample_trader)
    as (Hb & _ & _ & _ & Hr).
  split; [rewrite Hb; vm_compute; reflexivity | exact Hr].
Qed.

(** C7: three executions in a row on one pair, each of which would have
    its buy confirmed and its sells refused, leave the pair's failure
    count at 0 and the effective minimum profit percent at the configured
    one, not at the raised one: each ends at the dry run of the buy leg.
    [_getEffectiveMinProfitPercent] itself does return the raised value
    once the count is at the threshold. *)
Theorem adaptive_threshold_never_rises :
  let '(st', results, exits) :=
    run_trades sample_config sample_trader sample_failures in
  results = [None; None; None] /\
  exits = [ExitFailed (NotAFunction "_simulateSwap");
           ExitFailed (NotAFunction "_simulateSwap");
           ExitFailed (NotAFunction "_simulateSwap")] /\
  failures st' "RAY/SOL" = 0%nat /\
  _getEffectiveMinProfitPercent sample_config st' "RAY/SOL"
  = of_js (minProfitPercent sample_config) /\
  _raisedMinProfitPct st' <> of_js (minProfitPercent sample_config) /\
  _getEffectiveMinProfitPercent sample_config
    (set_counts st' {["RAY/SOL" := 3%nat]}) "RAY/SOL"
  = _raisedMinProfitPct st'.
Proof.
  vm_compute. repeat split; try reflexivity. discriminate.
Qed.

End EngineProps.

(* ===================================================================== *)
(** ** Properties of the price sources *)
(* ===================================================================== *)

Module PricesProps.
Import Prices.

Lemma jlt_asym (a b : jsnum) : jlt a b = true -> jlt b a = false.
Proof.
  destruct a as [x| | |], b as [y| | |]; cbn; try congruence.
  unfold Qltb. intros H.
  apply negb_true_iff in H. apply negb_false_iff.
  apply Qle_bool_iff. destruct (Qle_bool y x) eqn:E; [discriminate|].
  apply Qlt_le_weak, Qnot_le_lt. intros Hle.
  apply Qle_bool_iff in Hle. congruence.
Qed.

Lemma quoteDex_exchange env dex mint p :
  _quoteDex env dex mint = Some p -> exchange p = dex.
Proof.
  unfold _quoteDex. destruct (dexQuote env dex mint) as [q|]; [|discriminate].
  destruct (_ || _)%bool; [discriminate|].
  destruct (jeq _ _); [discriminate|].
  intros H. injection H as <-. reflexivity.
Qed.

Lemma quote_all_venues env mint dexes :
  venues (quote_all env mint dexes) `sublist_of` dexes.
Proof.
  unfold quote_all, venues.
  induction dexes as [|dex dexes IH]; [constructor|].
  cbn. destruct (_quoteDex env dex mint) as [p|] eqn:E.
  - cbn. rewrite (quoteDex_exchange _ _ _ _ E). now constructor.
  - now constructor.
Qed.

Lemma TARGET_DEXES_NoDup : NoDup TARGET_DEXES.
Proof.
  unfold TARGET_DEXES.
  repeat (constructor; [rewrite ?elem_of_cons, elem_of_nil;
                        intros H; repeat destruct H as [H|H]; discriminate || tauto|]).
  constructor.
Qed.

Lemma quote_all_NoDup env mint :
  NoDup (venues (quote_all env mint TARGET_DEXES)).
Proof.
  eapply sublist_NoDup; [apply TARGET_DEXES_NoDup | apply quote_all_venues].
Qed.

(** The primary source never returns two points of one venue, and keeps
    its cache that way. *)
Lemma getPrices_NoDup cfg cache env tok :
  cache_ok cache ->
  NoDup (venues (snd (getPrices cfg cache env tok))) /\
  cache_ok (fst (getPrices cfg cache env tok)).
Proof.
  intros Hok. unfold getPrices.
  destruct (getTokenMint cfg tok) as [mint|]; [|split; [constructor | exact Hok]].
  assert (Hnew : cache_ok (<[tok := (nowStore env, quote_all env mint TARGET_DEXES)]> cache)).
  { intros k ts ps Hk. destruct (decide (tok = k)) as [->|Hne].
    - rewrite lookup_insert_eq in Hk. injection Hk as <- <-.
      apply quote_all_NoDup.
    - rewrite lookup_insert_ne in Hk by exact Hne. eapply Hok, Hk. }
  destruct (cache !! tok) as [[ts cached]|] eqn:E.
  - destruct (_ <? _).
    + split; [eapply Hok, E | exact Hok].
    + split; [apply quote_all_NoDup | exact Hnew].
  - split; [apply quote_all_NoDup | exact Hnew].
Qed.

Lemma remove_dups_NoDup_id (l : list string) : NoDup l -> remove_dups l = l.
Proof.
  induction 1 as [|x l Hx Hl IH]; [reflexivity|].
  cbn [remove_dups]. destruct (decide_rel elem_of x l); [contradiction|].
  now rewrite IH.
Qed.

Lemma distinct_venues_NoDup (l : list PricePoint) :
  NoDup (venues l) -> distinct_venues l = length l.
Proof.
  intros H. unfold distinct_venues. rewrite (remove_dups_NoDup_id _ H).
  unfold venues. apply length_map.
Qed.

(** C10: with a cache filled by the primary source itself, [fetchAllPrices]
    returns the primary source's result set when that set has points of
    at least two distinct venues, and otherwise the secondary source's
    points filtered: every point with liquidity below 10,000 or 24h volume
    below 500 is removed, every point above both is kept, in the order
    received. *)
Theorem fetchAllPrices_primary_or_filtered_fallback (cfg : Config)
    (cache : Cache) (env : Env) (tok : string) :
  cache_ok cache ->
  let primary := snd (getPrices cfg cache env tok) in
  let secondary := default [] (dexScreener env) in
  let result := snd (fetchAllPrices cfg cache env tok) in
  ((2 <= distinct_venues primary)%nat -> result = primary) /\
  ((distinct_venues primary < 2)%nat ->
     result = List.filter liquid secondary /\
     (forall p, In p secondary ->
        jlt (liquidity p) (dec 10000 1) = true \/
        jlt (volume24h p) (dec 500 1) = true ->
        ~ In p result) /\
     (forall p, In p secondary ->
        jgt (liquidity p) (dec 10000 1) = true ->
        jgt (volume24h p) (dec 500 1) = true ->
        In p result) /\
     (forall p, In p result -> In p secondary)) /\
  cache_ok (fst (fetchAllPrices cfg cache env tok)).
Proof.
  intros Hok. cbv zeta.
  destruct (getPrices_NoDup cfg cache env tok Hok) as [Hnd Hok'].
  pose proof (distinct_venues_NoDup _ Hnd) as Hlen.
  unfold fetchAllPrices.
  destruct (getPrices cfg cache env tok) as [cache' jupPrices].
  cbn [fst snd] in *. rewrite Hlen.
  destruct (2 <=? length jupPrices)%nat eqn:E; cbn [fst snd].
  - apply Nat.leb_le in E. repeat split; [lia.. | exact Hok'].
  - apply Nat.leb_gt in E. split; [lia|]. split; [|exact Hok'].
    intros _.
    assert (Hres : match dexScreener env with
                   | Some dexPrices => List.filter liquid dexPrices
                   | None => []
                   end = List.filter liquid (default [] (dexScreener env)))
      by (destruct (dexScreener env); reflexivity).
    rewrite Hres. split; [reflexivity|]. repeat split.
    + intros p Hin Hlow Hres'. apply filter_In in Hres' as [_ Hl].
      unfold liquid, jgt in Hl. apply andb_true_iff in Hl as [Hl1 Hl2].
      destruct Hlow as [Hlow|Hlow]; apply jlt_asym in Hlow; congruence.
    + intros p Hin H1 H2. apply filter_In. split; [exact Hin|].
      unfold liquid. now rewrite H1, H2.
    + intros p Hin. now apply filter_In in Hin.
Qed.

Lemma fetchAllPrices_primary_or_filtered_fallback_witness :
  cache_ok ∅ /\
  snd (fetchAllPrices sample_config ∅ sample_prices_env "RAY")
  = List.filter liquid (default [] (dexScreener sample_prices_env)).
Proof.
  assert (H : cache_ok ∅).
  { intros k ts ps Hk. rewrite lookup_empty in Hk. discriminate. }
  split; [exact H|].
  destruct (fetchAllPrices_primary_or_filtered_fallback sample_config ∅
              sample_prices_env "RAY" H) as (_ & Hfb & _).
  apply Hfb. vm_compute. lia.
Defined.

End PricesProps.

(* ===================================================================== *)
(** ** Properties of the scan scheduler *)
(* ===================================================================== *)

Module SchedulerProps.
Import Scheduler.

(** The guard of [_onSwapEvent]: while the flag is set, a push trigger
    changes nothing. *)
Lemma push_dropped_while_scanning (b : Bot) :
  scanning b = true -> _onSwapEvent b = b.
Proof. intros H. unfold _onSwapEvent. now rewrite H. Qed.

(** The debounce callback never starts a scan while the flag is set. *)
Lemma debounce_keeps_inflight_while_scanning (b : Bot) :
  scanning b = true -> inflight (debounce_callback b) = inflight b.
Proof.
  intros H. unfold debounce_callback. cbn.
  destruct (_ <? _); [reflexivity|].
  unfold _onSwapEvent. cbn. now rewrite H.
Qed.

(** The fallback callback has no such guard: it always starts a scan. *)
Lemma fallback_starts_scan (b : Bot) :
  inflight (fallback_callback b) = (inflight b ++ [Fallback])%list.
Proof. reflexivity. Qed.

(** C1: the bot is started at time 0 and its boot scan is still in flight
    (the flag is set) when the fallback timer comes due at 180,000 ms; the
    timer's callback starts a second [scanAndTrade] next to the first. *)
Theorem fallback_starts_concurrent_scan :
  reachable (start 0) /\
  scanning (start 0) = true /\
  inflight (start 0) = [Boot] /\
  exists b, step (start 0) 180000 FallbackFires = Some b /\
            scanning b = true /\
            inflight b = [Boot; Fallback].
Proof.
  split; [exists 0, []; reflexivity|].
  split; [reflexivity|]. split; [reflexivity|].
  eexists. split; [reflexivity|]. split; reflexivity.
Qed.

(** With two scans in flight the first to return clears the flag, and a
    push trigger then starts a third scan next to the one still running. *)
Lemma push_starts_scan_after_flag_cleared :
  exists b,
    run (start 0) [(180000, FallbackFires); (200000, ScanReturns 0);
                   (200100, Logs "Orca"); (200250, DebounceFires)] = Some b /\
    inflight b = [Fallback; Push].
Proof. eexists. split; vm_compute; reflexivity. Qed.

End SchedulerProps.

(* ===================================================================== *)
(** ** Further properties of the number model *)
(* ===================================================================== *)

Section NumOrder.

Lemma Qltb_true (a b : Q) : Qltb a b = true <-> (a < b)%Q.
Proof.
  unfold Qltb. rewrite negb_true_iff. split.
  - intros H. apply Qnot_le_lt. intros Hle. apply Qle_bool_iff in Hle. congruence.
  - intros H. destruct (Qle_bool b a) eqn:E; [|reflexivity].
    apply Qle_bool_iff in E. exfalso. apply (Qlt_not_le _ _ H E).
Qed.

Lemma Qltb_false (a b : Q) : Qltb a b = false <-> (b <= a)%Q.
Proof.
  unfold Qltb. rewrite negb_false_iff. apply Qle_bool_iff.
Qed.

End NumOrder.

(* ===================================================================== *)
(** ** Further properties of the execution engine *)
(* ===================================================================== *)

Module EngineMore.
Import Engine EngineProps.

(** X1: [executeTrade] never trades.  On every input, whatever the engine's
    state and whatever the price service, the wallet and the quote
    endpoint answer, it returns [null] and sends nothing, and it leaves
    every field of the engine as it was except the SOL price cache. *)
Theorem executeTrade_never_trades (cfg : Config) (st : LiveTrader)
    (env : Env) (o : TradeOpportunity) :
  let '(st', r, effs) := executeTrade cfg st env o in
  r = None /\ effs = [] /\
  dryRun st' = dryRun st /\ balance st' = balance st /\
  breaker_and_counts st' = breaker_and_counts st /\
  _failureThreshold st' = _failureThreshold st /\
  _raisedMinProfitPct st' = _raisedMinProfitPct st.
Proof.
  rewrite executeTrade_returns_null.
  pose proof (executeTrade_exit_frame cfg st env o) as F. cbn zeta in F.
  destruct F as (Fd & Fb & Fl & Fr & Fh & Fc & Ft & Fp).
  unfold breaker_and_counts. rewrite Fl, Fr, Fh, Fc.
  repeat split; assumption.
Qed.

Lemma failures_frame st st' :
  _sellFailureCounts st' = _sellFailureCounts st ->
  forall k, failures st' k = failures st k.
Proof. intros H k. unfold failures. now rewrite H. Qed.

Lemma bot_op_frame cfg st op :
  bot_op op = true ->
  _halted (apply_op cfg st op) = _halted st /\
  _dailyLoss (apply_op cfg st op) = _dailyLoss st /\
  _dailyLossReset (apply_op cfg st op) = _dailyLossReset st /\
  _failureThreshold (apply_op cfg st op) = _failureThreshold st /\
  forall k, (failures (apply_op cfg st op) k <= failures st k)%nat.
Proof.
  destruct op; cbn [bot_op apply_op]; try discriminate; intros _.
  - rewrite executeTrade_state.
    pose proof (executeTrade_exit_frame cfg st env o) as F. cbn zeta in F.
    destruct F as (_ & _ & Fl & Fr & Fh & Fc & Ft & _).
    repeat split; try assumption.
    intros k. now rewrite (failures_frame _ _ Fc).
  - unfold init.
    pose proof (fetchSolPrice_frame st now api) as F. cbn zeta in F.
    destruct (_fetchSolPrice st now api) as [st1 p]. cbn [fst] in F.
    destruct F as (_ & _ & Fl & Fr & Fh & Fc & Ft & _).
    destruct lamports;
      cbn [set_balance _halted _dailyLoss _dailyLossReset _failureThreshold];
      (repeat split; try assumption);
      intros k; unfold failures; cbn [set_balance _sellFailureCounts];
      now rewrite Fc.
  - pose proof (fetchSolPrice_frame st now api) as F. cbn zeta in F.
    destruct F as (_ & _ & Fl & Fr & Fh & Fc & Ft & _).
    repeat split; try assumption.
    intros k. now rewrite (failures_frame _ _ Fc).
  - unfold _processAutoSell.
    destruct quote as [q|]; [|cbn [fst]; repeat split; lia].
    destruct (dryRun st); [cbn [fst]; repeat split; lia|].
    pose proof (fetchSolPrice_frame st now api) as F. cbn zeta in F.
    destruct (_fetchSolPrice st now api) as [st1 p]. cbn [fst] in F.
    destruct F as (_ & _ & Fl & Fr & Fh & Fc & Ft & _).
    pose proof (failures_frame _ _ Fc) as Ff.
    destruct lamports as [l|];
      [|cbn [fst]; repeat split; try assumption; intros k; now rewrite Ff].
    destruct (flt _ _);
      [cbn [fst]; repeat split; try assumption; intros k; now rewrite Ff|].
    destruct (Trade.present txId);
      [|cbn [fst]; repeat split; try assumption; intros k; now rewrite Ff].
    cbn [fst].
    destruct (failures st1 (symbol ++ "/SOL") =? 0)%nat;
      [repeat split; try assumption; intros k; now rewrite Ff|].
    cbn [set_counts _halted _dailyLoss _dailyLossReset _failureThreshold].
    repeat split; try assumption.
    intros k. unfold failures at 1. cbn [set_counts _sellFailureCounts].
    destruct (decide (k = (symbol ++ "/SOL")%string)) as [->|Hne].
    + rewrite lookup_insert_eq. cbn. lia.
    + rewrite lookup_insert_ne by congruence.
      fold (failures st1 k). now rewrite Ff.
Qed.

(** X2: the bot can trip neither safety device.  Under [init],
    [executeTrade], the price fetch and the auto-sell, in any number and
    order, the breaker flag and the day's tally stay what they were and no
    pair's failure count grows; so an engine as the constructor makes it
    is never halted and asks the configured minimum profit of every
    pair. *)
Theorem bot_never_trips_breaker (cfg : Config) (st : LiveTrader)
    (ops : list engine_op) :
  forallb bot_op ops = true ->
  _halted (run_ops cfg st ops) = _halted st /\
  _dailyLoss (run_ops cfg st ops) = _dailyLoss st /\
  (forall k, (failures (run_ops cfg st ops) k <= failures st k)%nat) /\
  (forall dry t0 k,
     st = new_trader cfg dry t0 ->
     _halted (run_ops cfg st ops) = false /\
     _getEffectiveMinProfitPercent cfg (run_ops cfg st ops) k
     = of_js (minProfitPercent cfg)).
Proof.
  intros Hops.
  assert (H : _halted (run_ops cfg st ops) = _halted st /\
              _dailyLoss (run_ops cfg st ops) = _dailyLoss st /\
              _failureThreshold (run_ops cfg st ops) = _failureThreshold st /\
              forall k, (failures (run_ops cfg st ops) k <= failures st k)%nat).
  { revert st. induction ops as [|op ops IH]; intros st;
      [cbn; repeat split; lia|].
    cbn [forallb] in Hops. apply andb_prop in Hops as [Hop Hops].
    destruct (bot_op_frame cfg st op Hop) as (Fh & Fl & _ & Ft & Ff).
    destruct (IH Hops (apply_op cfg st op)) as (Ih & Il & It & If).
    cbn [run_ops fold_left]. fold (run_ops cfg (apply_op cfg st op) ops).
    repeat split; try congruence.
    intros k. specialize (If k). specialize (Ff k). lia. }
  destruct H as (Hh & Hl & Ht & Hf).
  repeat split; try assumption.
  - subst st. rewrite Hh. reflexivity.
  - subst st. unfold _getEffectiveMinProfitPercent. rewrite Ht.
    specialize (Hf k). cbn [new_trader _failureThreshold] in *.
    unfold failures in Hf at 2. cbn [new_trader _sellFailureCounts] in Hf.
    rewrite lookup_empty in Hf. cbn in Hf.
    replace (failures _ k) with 0%nat by lia. reflexivity.
Qed.

Lemma bot_never_trips_breaker_witness :
  _halted (run_ops sample_config sample_trader
             [OpInit 500 (Some (lit 100 1)) (Some (lit 1000000000 1));
              OpExecuteTrade (sample_env 1000) sample_opportunity;
              OpAutoSell 2000 None (Some {| outAmount := lit 5 1 |})
                (Some (lit 1000000000 1)) (Some "5Sig") "RAY";
              OpExecuteTrade (sample_env 3000) sample_opportunity])
  = false.
Proof.
  destruct (bot_never_trips_breaker sample_config sample_trader
              [OpInit 500 (Some (lit 100 1)) (Some (lit 1000000000 1));
               OpExecuteTrade (sample_env 1000) sample_opportunity;
               OpAutoSell 2000 None (Some {| outAmount := lit 5 1 |})
                 (Some (lit 1000000000 1)) (Some "5Sig") "RAY";
               OpExecuteTrade (sample_env 3000) sample_opportunity]
              eq_refl) as (H & _).
  rewrite H. reflexivity.
Defined.

(** X3: after every [_recordLoss] the reset time lies strictly in the
    future.  A loss recorded at or after the reset time starts a new tally
    with that loss alone and moves the reset to the next UTC day boundary,
    at most 24 hours ahead; a loss recorded before it is added to the
    running tally and leaves the reset time alone. *)
Theorem recordLoss_reset_is_lazy (cfg : Config) (st : LiveTrader) (now : Z)
    (amount : f64) :
  let st' := _recordLoss cfg st now amount in
  now < _dailyLossReset st' /\
  (_dailyLossReset st <= now ->
     _dailyLoss st' = fadd fzero amount /\
     _dailyLossReset st' mod 86400000 = 0 /\
     _dailyLossReset st' <= now + 86400000) /\
  (now < _dailyLossReset st ->
     _dailyLoss st' = fadd (_dailyLoss st) amount /\
     _dailyLossReset st' = _dailyLossReset st).
Proof.
  cbv zeta. unfold _recordLoss, _todayMidnightUtc.
  pose proof (Z.div_mod now 86400000 ltac:(lia)) as Hdm.
  pose proof (Z.mod_pos_bound now 86400000 ltac:(lia)) as Hb.
  destruct (_dailyLossReset st <=? now) eqn:E;
    cbn [set_breaker _dailyLoss _dailyLossReset].
  - apply Z.leb_le in E. split; [lia|]. split; [|lia].
    intros _. split; [reflexivity|]. split; [|lia].
    apply Z.mod_mul. lia.
  - apply Z.leb_gt in E. split; [lia|]. split; [lia|]. tauto.
Qed.

(** X4: the SOL price cache.  Once [_fetchSolPrice] has returned a truthy
    price, every call within 60 seconds of the time that price was stored
    returns the same price and leaves the engine as it is, whatever the
    price service would answer; and when the service fails the stale price
    is returned, or 0 when there is none. *)
Theorem solPrice_cached_for_a_minute (st : LiveTrader) (t0 : Z)
    (api : option f64) :
  let st1 := fst (_fetchSolPrice st t0 api) in
  let p := snd (_fetchSolPrice st t0 api) in
  (ftruthy p = true ->
   forall t api', t - _solPriceTs st1 < 60000 ->
                  _fetchSolPrice st1 t api' = (st1, p)) /\
  (api = None -> st1 = st /\ p = default fzero (_solPriceUsd st)).
Proof.
  cbv zeta. split.
  - intros Hp t api' Ht.
    assert (Hc : _solPriceUsd (fst (_fetchSolPrice st t0 api))
                 = Some (snd (_fetchSolPrice st t0 api))).
    { revert Hp. unfold _fetchSolPrice.
      destruct (_solPriceUsd st) as [c|] eqn:Ec.
      - destruct (ftruthy c && (t0 - _solPriceTs st <? 60000))%bool;
          [cbn; now rewrite Ec|].
        destruct api as [a|]; cbn; [reflexivity | now rewrite Ec].
      - destruct api as [a|]; cbn; [reflexivity | discriminate]. }
    set (st1 := fst (_fetchSolPrice st t0 api)) in *.
    set (p := snd (_fetchSolPrice st t0 api)) in *.
    unfold _fetchSolPrice at 1. rewrite Hc, Hp. cbn [andb].
    replace (t - _solPriceTs st1 <? 60000) with true
      by (symmetry; apply Z.ltb_lt; exact Ht).
    reflexivity.
  - intros ->. unfold _fetchSolPrice.
    destruct (match _solPriceUsd st with Some _ => _ | None => _ end);
      cbn; split; reflexivity.
Qed.

(** X5: the auto-sell sends exactly one message to the notifier on every
    path, touches neither the balance nor the breaker, and changes no
    failure count but, after a confirmed sale, that of the token's SOL
    pair, which it clears. *)
Theorem autoSell_one_notice (cfg : Config) (st : LiveTrader) (now : Z)
    (api : option f64) (quote : option Quote) (lamports : option f64)
    (txId : option string) (symbol : string) :
  let '(st', effs) :=
    _processAutoSell cfg st now api quote lamports txId symbol in
  let key := (symbol ++ "/SOL")%string in
  length effs = 1%nat /\
  balance st' = balance st /\ _halted st' = _halted st /\
  (forall k, k <> key -> failures st' k = failures st k) /\
  (failures st' key = 0%nat \/ failures st' key = failures st key) /\
  (In (NotifyAutoSellSold symbol (default "" txId)) effs ->
   failures st' key = 0%nat).
Proof.
  unfold _processAutoSell.
  destruct quote as [q|];
    [|repeat split; auto; intros [H|[]]; discriminate].
  destruct (dryRun st);
    [repeat split; auto; intros [H|[]]; discriminate|].
  pose proof (fetchSolPrice_frame st now api) as F. cbn zeta in F.
  destruct (_fetchSolPrice st now api) as [st1 p]. cbn [fst] in F.
  destruct F as (_ & Fb & _ & _ & Fh & Fc & _).
  pose proof (failures_frame _ _ Fc) as Ff.
  destruct lamports as [l|];
    [|repeat split; auto; intros [H|[]]; discriminate].
  destruct (flt _ _);
    [repeat split; auto; intros [H|[]]; discriminate|].
  destruct (Trade.present txId);
    [|repeat split; auto; intros [H|[]]; discriminate].
  destruct (failures st1 (symbol ++ "/SOL") =? 0)%nat eqn:Hz.
  - apply Nat.eqb_eq in Hz.
    repeat split; auto.
  - assert (Hk : failures
                   (set_counts st1 (<[(symbol ++ "/SOL")%string := 0%nat]>
                                      (_sellFailureCounts st1)))
                   (symbol ++ "/SOL") = 0%nat).
    { unfold failures. cbn. now rewrite lookup_insert_eq. }
    repeat split; auto.
    intros k Hk'. unfold failures at 1. cbn [set_counts _sellFailureCounts].
    rewrite lookup_insert_ne by congruence. apply Ff.
Qed.

End EngineMore.

(* ===================================================================== *)
(** ** Further properties of the detector and the scan *)
(* ===================================================================== *)

Module DetectorMore.
Import Detector DetectorProps.

Lemma pair_step_well_formed cfg clk prices p1 p2 s :
  In p1 prices -> In p2 prices ->
  Forall (well_formed cfg prices) (opportunities s) ->
  Forall (well_formed cfg prices) (opportunities (pair_step cfg clk p1 p2 s)) /\
  (length (opportunities (pair_step cfg clk p1 p2 s))
   <= S (length (opportunities s)))%nat.
Proof.
  intros H1 H2 Hs. unfold pair_step.
  cbn [reads opportunities bestSpread bestPair].
  destruct (_ || _)%bool; [cbn [opportunities]; split; [exact Hs | lia]|].
  destruct (String.eqb (exchange p1) (exchange p2)) eqn:Ex;
    [cbn [opportunities]; split; [exact Hs | lia]|].
  apply String.eqb_neq in Ex.
  destruct (jgt _ (bestSpread s)); cbn [opportunities];
    destruct (jge _ (minThreshold cfg)) eqn:Eg;
    try (split; [exact Hs | lia]).
  all: split; [|rewrite length_app; cbn; lia].
  all: apply Forall_app; split; [exact Hs|].
  all: constructor; [|constructor].
  all: unfold well_formed; cbn [buyExchange sellExchange profitPercent].
  all: destruct (jlt (price p1) (price p2)); repeat split;
    try exact Eg; try (apply in_map; assumption); congruence.
Qed.

Lemma inner_loop_well_formed cfg clk prices p1 rest : forall s,
  In p1 prices -> incl rest prices ->
  Forall (well_formed cfg prices) (opportunities s) ->
  Forall (well_formed cfg prices)
         (opportunities (inner_loop cfg clk p1 rest s)) /\
  (length (opportunities (inner_loop cfg clk p1 rest s))
   <= length (opportunities s) + length rest)%nat.
Proof.
  induction rest as [|p2 rest IH]; intros s H1 Hin Hs; cbn [inner_loop length].
  - split; [exact Hs | lia].
  - destruct (pair_step_well_formed cfg clk prices p1 p2 s H1
                (Hin p2 (or_introl eq_refl)) Hs) as [Hf Hl].
    destruct (IH (pair_step cfg clk p1 p2 s) H1
                (fun x Hx => Hin x (or_intror Hx)) Hf) as [Hf' Hl'].
    split; [exact Hf' | lia].
Qed.

Lemma outer_loop_well_formed cfg clk prices sub : forall s,
  incl sub prices ->
  Forall (well_formed cfg prices) (opportunities s) ->
  Forall (well_formed cfg prices) (opportunities (outer_loop cfg clk sub s)) /\
  (length (opportunities (outer_loop cfg clk sub s))
   <= length (opportunities s) + pair_count sub)%nat.
Proof.
  induction sub as [|p1 rest IH]; intros s Hin Hs; cbn [outer_loop pair_count].
  - split; [exact Hs | lia].
  - destruct (inner_loop_well_formed cfg clk prices p1 rest s
                (Hin p1 (or_introl eq_refl))
                (fun x Hx => Hin x (or_intror Hx)) Hs) as [Hf Hl].
    destruct (IH (inner_loop cfg clk p1 rest s)
                (fun x Hx => Hin x (or_intror Hx)) Hf) as [Hf' Hl'].
    split; [exact Hf' | lia].
Qed.

Lemma find_returned_well_formed cfg clk prices tok opps :
  fst (findArbitrageOpportunities cfg clk prices tok) = Returned opps ->
  Forall (well_formed cfg prices) opps /\
  (length opps <= pair_count prices)%nat.
Proof.
  intros H.
  destruct (outer_loop_well_formed cfg clk prices prices scan0
              (fun x Hx => Hx) (List.Forall_nil _)) as [Hf Hl].
  cbn [scan0 opportunities length] in Hl.
  unfold findArbitrageOpportunities in H.
  destruct (String.eqb _ "") in H;
    [|destruct (_ && _)%bool in H; [discriminate|]];
    cbn [fst] in H; injection H as <-; split; assumption.
Qed.

(** X6: every opportunity [findArbitrageOpportunities] returns names two
    different venues, both taken from the input list, and carries a profit
    percent not below the threshold; and there are no more opportunities
    than pairs of input points (none for fewer than two points). *)
Theorem returned_opportunities_well_formed (cfg : Config) (clk : clock)
    (prices : list PricePoint) (tok : string) (opps : list Opportunity) :
  fst (findArbitrageOpportunities cfg clk prices tok) = Returned opps ->
  Forall (fun o =>
            buyExchange o <> sellExchange o /\
            In (buyExchange o) (map exchange prices) /\
            In (sellExchange o) (map exchange prices) /\
            jge (profitPercent o) (minProfitPercent cfg * dec 100 1)%js = true)
         opps /\
  (length opps <= pair_count prices)%nat.
Proof. apply find_returned_well_formed. Qed.

Lemma returned_opportunities_well_formed_witness :
  exists opps,
    fst (findArbitrageOpportunities scenario_config (fun _ => 1000)
           (scenario_prices 1000) "RAY") = Returned opps /\
    (length opps <= pair_count (scenario_prices 1000))%nat.
Proof.
  eexists. split; [reflexivity|].
  exact (proj2 (returned_opportunities_well_formed scenario_config
                  (fun _ => 1000) (scenario_prices 1000) "RAY" _ eq_refl)).
Defined.

(** A pair step that is skipped leaves the locals alone but for the clock
    read. *)
Lemma pair_step_skipped cfg clk p1 p2 s :
  (clk (reads s) - timestamp p1 >? 10000) || (clk (reads s) - timestamp p2 >? 10000)
    || String.eqb (exchange p1) (exchange p2) = true ->
  opportunities (pair_step cfg clk p1 p2 s) = opportunities s /\
  bestPair (pair_step cfg clk p1 p2 s) = bestPair s.
Proof.
  intros H. unfold pair_step. cbn [reads opportunities bestSpread bestPair].
  destruct (_ || _)%bool eqn:E1 in |- *; [split; reflexivity|].
  rewrite E1 in H. cbn [orb] in H. rewrite H. split; reflexivity.
Qed.

Lemma inner_loop_skipped cfg clk p1 rest : forall s,
  (forall p2 k, In p2 rest ->
     (clk k - timestamp p1 >? 10000) || (clk k - timestamp p2 >? 10000)
       || String.eqb (exchange p1) (exchange p2) = true) ->
  opportunities (inner_loop cfg clk p1 rest s) = opportunities s /\
  bestPair (inner_loop cfg clk p1 rest s) = bestPair s.
Proof.
  induction rest as [|p2 rest IH]; intros s H; cbn [inner_loop];
    [split; reflexivity|].
  destruct (pair_step_skipped cfg clk p1 p2 s (H p2 _ (or_introl eq_refl)))
    as [Ho Hb].
  destruct (IH (pair_step cfg clk p1 p2 s)
              (fun q k Hq => H q k (or_intror Hq))) as [Ho' Hb'].
  split; congruence.
Qed.

Lemma outer_loop_skipped cfg clk prices : forall s,
  (forall p1 p2 k, In p1 prices -> In p2 prices ->
     (clk k - timestamp p1 >? 10000) || (clk k - timestamp p2 >? 10000)
       || String.eqb (exchange p1) (exchange p2) = true) ->
  opportunities (outer_loop cfg clk prices s) = opportunities s /\
  bestPair (outer_loop cfg clk prices s) = bestPair s.
Proof.
  induction prices as [|p1 rest IH]; intros s H; cbn [outer_loop];
    [split; reflexivity|].
  destruct (inner_loop_skipped cfg clk p1 rest s
              (fun q k Hq => H p1 q k (or_introl eq_refl) (or_intror Hq)))
    as [Ho Hb].
  destruct (IH (inner_loop cfg clk p1 rest s)
              (fun a c k Ha Hc => H a c k (or_intror Ha) (or_intror Hc)))
    as [Ho' Hb'].
  split; congruence.
Qed.

(** X7: when every pair of input points is unusable, because one of the
    two is older than 10 seconds at the time the pair is looked at or
    because both are on the same venue, the detector returns no
    opportunity and writes nothing, however large the price differences
    are.  In particular this holds when all points are stale and when all
    points are on one venue. *)
Theorem unusable_pairs_yield_nothing (cfg : Config) (clk : clock)
    (prices : list PricePoint) (tok : string) :
  (forall p1 p2 k, In p1 prices -> In p2 prices ->
     10000 < clk k - timestamp p1 \/ 10000 < clk k - timestamp p2 \/
     exchange p1 = exchange p2) ->
  findArbitrageOpportunities cfg clk prices tok = (Returned [], []).
Proof.
  intros H.
  destruct (outer_loop_skipped cfg clk prices scan0) as [Ho Hb].
  { intros p1 p2 k H1 H2.
    destruct (H p1 p2 k H1 H2) as [Hs|[Hs|He]].
    - replace (clk k - timestamp p1 >? 10000) with true; [reflexivity|].
      symmetry. rewrite Z.gtb_ltb. apply Z.ltb_lt. exact Hs.
    - replace (clk k - timestamp p2 >? 10000) with true;
        [now rewrite orb_true_r|].
      symmetry. rewrite Z.gtb_ltb. apply Z.ltb_lt. exact Hs.
    - rewrite He, String.eqb_refl. now rewrite orb_true_r. }
  unfold findArbitrageOpportunities. rewrite Hb, Ho. reflexivity.
Qed.

Lemma unusable_pairs_yield_nothing_witness :
  findArbitrageOpportunities scenario_config (fun _ => 20000)
    [scenario_point "X" (dec 100 1) 1000; scenario_point "Y" (dec 200 1) 1000]
    "RAY" = (Returned [], []).
Proof.
  apply unusable_pairs_yield_nothing.
  intros p1 p2 k H1 H2. left.
  destruct H1 as [<-|[<-|[]]]; cbn; lia.
Defined.

End DetectorMore.

(* ===================================================================== *)
(** ** Prices that are not positive numbers *)
(* ===================================================================== *)

Module DetectorEdge.
Import Detector.

Lemma jmul_NaN_l (a : jsnum) : (NaN * a)%js = NaN.
Proof. destruct a; reflexivity. Qed.

Lemma nan_pair_unprofitable cfg thr :
  jge (adjustedProfitPercent cfg NaN NaN) thr = false.
Proof.
  unfold adjustedProfitPercent, buyPriceWithSlippage, sellPriceWithSlippage.
  rewrite !jmul_NaN_l. destruct thr; reflexivity.
Qed.

(** X8: a price point whose price is NaN (an unparsable price from the
    fallback source) takes part in no opportunity and does not move the
    best spread: the loop body only reads the clock. *)
Theorem nan_price_pair_is_ignored (cfg : Config) (clk : clock)
    (p1 p2 : PricePoint) (s : scan) :
  price p1 = NaN \/ price p2 = NaN ->
  pair_step cfg clk p1 p2 s = after_clock_read s.
Proof.
  intros H. unfold pair_step, after_clock_read.
  cbn [reads opportunities bestSpread bestPair].
  destruct (_ || _)%bool; [reflexivity|].
  destruct (String.eqb _ _); [reflexivity|].
  assert (Hmin : jmin (price p1) (price p2) = NaN)
    by (destruct H as [-> | ->]; [|destruct (price p1)]; reflexivity).
  assert (Hmax : jmax (price p1) (price p2) = NaN)
    by (destruct H as [-> | ->]; [|destruct (price p1)]; reflexivity).
  rewrite Hmin, Hmax, nan_pair_unprofitable.
  replace (jgt (rawSpread NaN NaN) (bestSpread s)) with false
    by (destruct (bestSpread s); reflexivity).
  reflexivity.
Qed.

Lemma nan_price_pair_is_ignored_witness :
  pair_step scenario_config (fun _ => 1000)
    (scenario_point "X" NaN 1000) (scenario_point "Y" (dec 100 1) 1000)
    scan0 = after_clock_read scan0.
Proof.
  exact (nan_price_pair_is_ignored scenario_config (fun _ => 1000)
           (scenario_point "X" NaN 1000)
           (scenario_point "Y" (dec 100 1) 1000) scan0
           (or_introl eq_refl)).
Defined.



End DetectorEdge.

(* ===================================================================== *)
(** ** Further properties of the scan-and-trade pipeline *)
(* ===================================================================== *)

Module PipelineProps.
Import Pipeline.

(** What the scan guarantees of an opportunity found for [token]. *)
Lemma scan_token_labelled cfg w cache token c opps io :
  scan_token cfg w cache token = (c, opps, io) ->
  Forall (fun o =>
            pair o = (token ++ "/" ++ baseToken cfg)%string /\
            buyExchange (found o) <> sellExchange (found o) /\
            jge (profitPercent (found o)) (Detector.minThreshold cfg) = true)
         opps.
Proof.
  unfold scan_token.
  destruct (Prices.fetchAllPrices cfg cache (pricesEnv w) token)
    as [cache' prices].
  destruct (length prices <? 2)%nat.
  - intros H; injection H as <- <- <-; constructor.
  - destruct (Detector.findArbitrageOpportunities cfg (detectorClock w)
                prices token) as [r lines] eqn:E.
    destruct r as [found_opps | e].
    + intros H; injection H as <- <- <-.
      assert (Hw : fst (Detector.findArbitrageOpportunities cfg
                          (detectorClock w) prices token)
                   = Returned found_opps) by (rewrite E; reflexivity).
      apply DetectorMore.find_returned_well_formed in Hw as [Hw _].
      apply List.Forall_map. eapply List.Forall_impl; [|exact Hw].
      intros o (Hne & _ & _ & Hge). cbn. auto.
    + intros H; injection H as <- <- <-; constructor.
Qed.

Lemma scan_tokens_labelled cfg world tokens : forall i cache c opps io,
  scan_tokens cfg world i cache tokens = (c, opps, io) ->
  Forall (fun o =>
            (exists token, In token tokens /\
               pair o = (token ++ "/" ++ baseToken cfg)%string) /\
            buyExchange (found o) <> sellExchange (found o) /\
            jge (profitPercent (found o)) (Detector.minThreshold cfg) = true)
         opps.
Proof.
  induction tokens as [|token rest IH]; intros i cache c opps io.
  - cbn. intros H; injection H as <- <- <-; constructor.
  - cbn [scan_tokens].
    destruct (scan_token cfg (world i) cache token) as [[c1 o1] io1] eqn:E1.
    destruct (scan_tokens cfg world (S i) c1 rest) as [[c2 o2] io2] eqn:E2.
    intros H; injection H as <- <- <-.
    apply List.Forall_app; split.
    + apply scan_token_labelled in E1.
      eapply List.Forall_impl; [|exact E1].
      intros o (Hp & Hne & Hge); repeat split; auto.
      exists token; split; [left; reflexivity | exact Hp].
    + apply IH in E2. eapply List.Forall_impl; [|exact E2].
      intros o ((tk & Hin & Hp) & Hne & Hge); repeat split; auto.
      exists tk; split; [right; exact Hin | exact Hp].
Qed.

(** X10: every opportunity [scanForOpportunities] returns is labelled
    with the part before the first slash of a monitored pair, a slash and
    the configured base token (whatever the quote side of the monitored
    pair was), names two different venues and has a profit percent not
    below the threshold. *)
Theorem scan_labels_by_base_token (cfg : Config) (monitorPairs : list string)
    (world : nat -> TokenWorld) (cache : Prices.Cache) :
  let '(_, opps, _) := scanForOpportunities cfg monitorPairs world cache in
  Forall (fun o =>
            (exists p, In p monitorPairs /\
               pair o = (Engine.split_head p ++ "/" ++ baseToken cfg)%string) /\
            buyExchange (found o) <> sellExchange (found o) /\
            jge (profitPercent (found o))
                (minProfitPercent cfg * dec 100 1)%js = true)
         opps.
Proof.
  unfold scanForOpportunities.
  destruct (scan_tokens cfg world 0 cache (map Engine.split_head monitorPairs))
    as [[c opps] io] eqn:E.
  apply scan_tokens_labelled in E.
  eapply List.Forall_impl; [|exact E].
  intros o ((tk & Hin & Hp) & Hne & Hge); repeat split; auto.
  apply List.in_map_iff in Hin as (p & <- & Hin).
  exists p; split; assumption.
Qed.

Lemma insert_by_profit_perm x l : Permutation (x :: l) (insert_by_profit x l).
Proof.
  induction l as [|y l IH]; cbn; [reflexivity|].
  destruct (jlt _ _); [reflexivity|].
  rewrite Permutation_swap. constructor. exact IH.
Qed.

Lemma fold_insert_perm l : forall acc,
  Permutation (acc ++ l)
    (fold_left (fun acc x => insert_by_profit x acc) l acc).
Proof.
  induction l as [|x l IH]; intros acc; cbn.
  - rewrite List.app_nil_r. reflexivity.
  - rewrite <- IH. rewrite <- insert_by_profit_perm.
    symmetry. apply Permutation_middle.
Qed.

Lemma sort_by_profit_perm l : Permutation l (sort_by_profit l).
Proof. exact (fold_insert_perm l []). Qed.

Section TraderProps.

Context {St T : Type}.
Variable exec : nat -> St -> TradeOpportunity -> St * outcome (option T).

Lemma record_found_ok opps :
  forallb recordable opps = true ->
  record_found (T := T) opps
  = (map (fun o => RecordOpportunity o false) opps, true).
Proof.
  induction opps as [|o rest IH]; cbn [record_found forallb map];
    [reflexivity|].
  intros H. apply andb_prop in H as [Ho Hr].
  rewrite Ho, (IH Hr). reflexivity.
Qed.

Lemma record_found_raises opps :
  forallb recordable opps = false ->
  snd (record_found (T := T) opps) = false /\
  Forall (fun e => is_record false e = true)
         (fst (record_found (T := T) opps)) /\
  (length (fst (record_found (T := T) opps)) < length opps)%nat.
Proof.
  induction opps as [|o rest IH]; cbn [record_found forallb];
    [discriminate|].
  destruct (recordable o) eqn:Ho; cbn [andb].
  - intros Hr. destruct (IH Hr) as (Hs & Hf & Hl).
    destruct (record_found rest) as [io ok]; cbn [fst snd length] in *.
    repeat split; [exact Hs | constructor; [reflexivity | exact Hf] | lia].
  - intros _. cbn [fst snd length]. repeat split; [constructor | lia].
Qed.

Lemma recorded_not_taken (l : list TradeOpportunity) :
  List.filter is_SendTrade
    (map (fun o => RecordOpportunity (T := T) o false) l) = [] /\
  List.filter (is_record true)
    (map (fun o => RecordOpportunity (T := T) o false) l) = [] /\
  length (List.filter (is_record false)
    (map (fun o => RecordOpportunity (T := T) o false) l)) = length l.
Proof.
  induction l as [|x l (I1 & I2 & I3)]; cbn; [auto|].
  repeat split; [exact I1 | exact I2 | rewrite I3; reflexivity].
Qed.

Lemma trade_each_counts opps : forall k st st' n io ok,
  trade_each exec k st opps = (st', n, io, ok) ->
  (n <= length opps)%nat /\
  length (List.filter is_SendTrade io) = n /\
  length (List.filter (is_record true) io) = n /\
  List.filter (is_record false) io = [].
Proof.
  induction opps as [|o rest IH]; intros k st st' n io ok;
    cbn [trade_each].
  - intros H; injection H as <- <- <- <-. cbn. auto.
  - destruct (exec k st o) as [st1 [[t|]|e]].
    + destruct (trade_each exec (S k) st1 rest) as [[[st2 m] io2] ok2] eqn:E.
      destruct (IH _ _ _ _ _ _ E) as (Hm & Hs & Ht & Hf).
      intros H; injection H as <- <- <- <-.
      cbn [List.filter is_SendTrade is_record Bool.eqb length].
      rewrite Hf. cbn [length]. repeat split; lia.
    + intros H. destruct (IH _ _ _ _ _ _ H) as (Hm & Hs & Ht & Hf).
      cbn [length]. repeat split; [lia | assumption..].
    + intros H; injection H as <- <- <- <-. cbn. repeat split; lia.
Qed.

(** X11: when every opportunity can be recorded, [scanAndTrade] has
    counted every opportunity as found and recorded each once as not
    taken, and has sent and recorded as taken exactly the trades it counts
    as executed, of which there are never more than three, nor more than
    opportunities; the scanning flag is cleared unless an execution
    raised. *)
Theorem scanAndTrade_books_what_it_executes (s : Session) (st : St)
    (opps : list TradeOpportunity) :
  forallb recordable opps = true ->
  let '(s', _, io, ok) := scanAndTrade exec s st opps in
  let executed := (tradesExecuted s' - tradesExecuted s)%nat in
  scanning s' = negb ok /\
  opportunitiesFound s' = (opportunitiesFound s + length opps)%nat /\
  (tradesExecuted s <= tradesExecuted s')%nat /\
  (executed <= Nat.min 3 (length opps))%nat /\
  length (List.filter is_SendTrade io) = executed /\
  length (List.filter (is_record true) io) = executed /\
  length (List.filter (is_record false) io) = length opps.
Proof.
  intros Hrec. unfold scanAndTrade.
  destruct opps as [|o rest]; [cbn; repeat split; lia|].
  rewrite record_found_ok by exact Hrec. cbn [negb].
  set (opps := o :: rest) in *.
  destruct (trade_each exec 0 st (firstn 3 (sort_by_profit opps)))
    as [[[st' n] io'] ok'] eqn:E.
  destruct (trade_each_counts _ _ _ _ _ _ _ E) as (Hn & Hs & Ht & Hf).
  rewrite List.length_firstn in Hn.
  rewrite <- (Permutation_length (sort_by_profit_perm opps)) in Hn.
  cbn [tradesExecuted scanning opportunitiesFound].
  replace (tradesExecuted s + n - tradesExecuted s)%nat with n by lia.
  rewrite !List.filter_app, Hf, List.app_nil_r.
  destruct (recorded_not_taken opps) as (M1 & M2 & M3).
  rewrite M1, M2, M3. cbn [app].
  repeat split; try lia; assumption.
Qed.

(** X12: when some opportunity has an empty pair or venue name, or a NaN
    where the ledger wants a number, [recordOpportunity] makes
    [scanAndTrade] raise during the recording pass: the scanning flag is
    left set, no trade is executed, the trader is untouched, and all that
    was done is to record, as not taken, the opportunities before the
    offending one. *)
Theorem unrecordable_opportunity_leaves_flag_set (s : Session) (st : St)
    (opps : list TradeOpportunity) :
  forallb recordable opps = false ->
  let '(s', st', io, ok) := scanAndTrade exec s st opps in
  ok = false /\ scanning s' = true /\ st' = st /\
  tradesExecuted s' = tradesExecuted s /\
  Forall (fun e => is_record false e = true) io /\
  (length io < length opps)%nat.
Proof.
  intros Hrec. unfold scanAndTrade.
  destruct opps as [|o rest]; [discriminate|].
  destruct (record_found_raises _ Hrec) as (Hs & Hf & Hl).
  destruct (record_found (o :: rest)) as [io ok]. cbn [fst snd] in *.
  subst ok. cbn [negb tradesExecuted scanning].
  repeat split; assumption.
Qed.

End TraderProps.

Lemma scanAndTrade_books_what_it_executes_witness :
  let '(s', _, io, ok) :=
    scanAndTrade alternating_trader sample_session 0%nat
      sample_opportunities in
  scanning s' = negb ok /\ opportunitiesFound s' = 4%nat /\
  tradesExecuted s' = 2%nat /\
  length (List.filter is_SendTrade io) = 2%nat.
Proof.
  assert (H : forallb recordable sample_opportunities = true)
    by reflexivity.
  pose proof (scanAndTrade_books_what_it_executes alternating_trader
                sample_session 0%nat sample_opportunities H) as P.
  destruct (scanAndTrade alternating_trader sample_session 0%nat
              sample_opportunities) as [[[s' st'] io] ok] eqn:E.
  destruct P as (P1 & P2 & _ & _ & P5 & _).
  assert (Hn : tradesExecuted s' = 2%nat)
    by (vm_compute in E; injection E as <- _ _ _; reflexivity).
  refine (conj P1 (conj P2 (conj Hn _))).
  rewrite P5, Hn. reflexivity.
Defined.

Lemma unrecordable_opportunity_leaves_flag_set_witness :
  let '(s', st', io, ok) :=
    scanAndTrade alternating_trader sample_session 0%nat
      [sample_opportunity; unnamed_venue_opportunity] in
  ok = false /\ scanning s' = true /\ st' = 0%nat /\
  length io = 1%nat.
Proof.
  assert (H : forallb recordable
                [sample_opportunity; unnamed_venue_opportunity] = false)
    by reflexivity.
  pose proof (unrecordable_opportunity_leaves_flag_set alternating_trader
                sample_session 0%nat
                [sample_opportunity; unnamed_venue_opportunity] H) as P.
  destruct (scanAndTrade alternating_trader sample_session 0%nat
              [sample_opportunity; unnamed_venue_opportunity])
    as [[[s' st'] io] ok] eqn:E.
  destruct P as (P1 & P2 & P3 & _ & _ & _).
  refine (conj P1 (conj P2 (conj P3 _))).
  vm_compute in E. injection E as _ _ <- _. reflexivity.
Defined.

Lemma by_profit_before (x y : TradeOpportunity) a b :
  profitPercent (found x) = Fin a -> profitPercent (found y) = Fin b ->
  jlt (by_profit x y) (Fin 0) = Qltb b a.
Proof.
  intros Hx Hy. unfold by_profit, jsub. rewrite Hx, Hy. cbn.
  unfold Qltb. f_equal.
  rewrite Qle_bool_Qred_r.
  destruct (Qle_bool a b) eqn:E.
  - apply Qle_bool_iff. apply Qle_bool_iff in E.
    rewrite (Qred_correct (- a)). lra.
  - destruct (Qle_bool 0 (b + Qred (- a))) eqn:E2; [|reflexivity].
    apply Qle_bool_iff in E2. rewrite (Qred_correct (- a)) in E2.
    assert (a <= b)%Q by lra. apply Qle_bool_iff in H. congruence.
Qed.

Lemma insert_by_profit_sorted x l :
  finite_profit x -> Forall finite_profit l ->
  StronglySorted at_least_as_profitable l ->
  StronglySorted at_least_as_profitable (insert_by_profit x l).
Proof.
  intros [a Ha] Hfin Hs. induction l as [|y l IH]; cbn.
  - constructor; constructor.
  - apply List.Forall_cons_iff in Hfin as [[b Hb] Hfin].
    apply StronglySorted_inv in Hs as [Hs Hy].
    rewrite (by_profit_before x y a b Ha Hb).
    destruct (Qltb b a) eqn:E.
    + constructor; [constructor; assumption|].
      apply Qltb_true in E.
      constructor.
      * unfold at_least_as_profitable. rewrite Ha, Hb. cbn.
        apply Qle_bool_iff. lra.
      * clear IH Hs. induction Hy as [|z l Hz Hy IHy]; constructor.
        -- apply List.Forall_cons_iff in Hfin as [[c Hc] _].
           unfold at_least_as_profitable in *. rewrite Ha, Hc.
           rewrite Hb, Hc in Hz. cbn in *.
           apply Qle_bool_iff. apply Qle_bool_iff in Hz. lra.
        -- apply IHy. now apply List.Forall_cons_iff in Hfin as [_ ?].
    + apply Qltb_false in E.
      constructor; [apply IH; assumption|].
      rewrite <- (insert_by_profit_perm x l). constructor; [|exact Hy].
      unfold at_least_as_profitable. rewrite Ha, Hb. cbn.
      now apply Qle_bool_iff.
Qed.

Lemma fold_insert_sorted l : forall acc,
  Forall finite_profit l -> Forall finite_profit acc ->
  StronglySorted at_least_as_profitable acc ->
  StronglySorted at_least_as_profitable
    (fold_left (fun acc x => insert_by_profit x acc) l acc).
Proof.
  induction l as [|x l IH]; intros acc Hl Hacc Hs; cbn; [exact Hs|].
  apply List.Forall_cons_iff in Hl as [Hx Hl].
  apply IH; [exact Hl | | now apply insert_by_profit_sorted].
  rewrite <- (insert_by_profit_perm x acc). now constructor.
Qed.

Lemma in_skipn_in {A} (l : list A) : forall n x, In x (skipn n l) -> In x l.
Proof.
  induction l as [|y l IH]; intros [|n] x H; cbn in *; auto.
  right. eapply IH; exact H.
Qed.

Lemma sorted_head_beats_tail (l : list TradeOpportunity) : forall n a b,
  StronglySorted at_least_as_profitable l ->
  In a (firstn n l) -> In b (skipn n l) -> at_least_as_profitable a b.
Proof.
  induction l as [|x l IH]; intros n a b Hs Ha Hb.
  - rewrite List.firstn_nil in Ha. destruct Ha.
  - destruct n as [|n]; [destruct Ha|].
    apply StronglySorted_inv in Hs as [Hs Hx].
    cbn in Ha, Hb. destruct Ha as [<- | Ha].
    + rewrite List.Forall_forall in Hx. apply Hx.
      eapply in_skipn_in; exact Hb.
    + eapply IH; eassumption.
Qed.

(** X13: on opportunities whose profit percents are numbers,
    [scanAndTrade] tries the three most profitable ones: the sorted list
    is a rearrangement of the opportunities in descending order of profit
    percent, so every opportunity among the first three is at least as
    profitable as every one left out. *)
Theorem top_three_are_most_profitable (opps : list TradeOpportunity) :
  Forall finite_profit opps ->
  Permutation opps (sort_by_profit opps) /\
  StronglySorted at_least_as_profitable (sort_by_profit opps) /\
  (forall a b,
     In a (firstn 3 (sort_by_profit opps)) ->
     In b (skipn 3 (sort_by_profit opps)) ->
     at_least_as_profitable a b).
Proof.
  intros Hfin.
  assert (Hs : StronglySorted at_least_as_profitable (sort_by_profit opps)).
  { apply fold_insert_sorted; [exact Hfin | constructor | constructor]. }
  split; [apply sort_by_profit_perm|]. split; [exact Hs|].
  intros a b. now apply sorted_head_beats_tail.
Qed.

Lemma top_three_are_most_profitable_witness :
  Forall finite_profit sample_opportunities /\
  Permutation sample_opportunities (sort_by_profit sample_opportunities) /\
  map pair (firstn 3 (sort_by_profit sample_opportunities))
  = ["JUP/SOL"; "BONK/SOL"; "WIF/SOL"].
Proof.
  assert (H : Forall finite_profit sample_opportunities).
  { repeat constructor; eexists; reflexivity. }
  refine (conj H (conj (proj1 (top_three_are_most_profitable _ H)) _)).
  reflexivity.
Defined.

Lemma trade_each_live cfg envs opps : forall k st,
  exists st',
    trade_each (live_trader cfg envs) k st opps = (st', 0%nat, [], true) /\
    Engine.balance st' = Engine.balance st /\
    Engine._halted st' = Engine._halted st /\
    Engine._dailyLoss st' = Engine._dailyLoss st /\
    Engine._sellFailureCounts st' = Engine._sellFailureCounts st.
Proof.
  induction opps as [|o rest IH]; intros k st; cbn [trade_each].
  - exists st. repeat split.
  - unfold live_trader at 1.
    rewrite EngineProps.executeTrade_returns_null.
    pose proof (EngineProps.executeTrade_exit_frame cfg st (envs k) o) as F.
    cbn zeta in F. destruct F as (_ & Fb & Fl & _ & Fh & Fc & _).
    destruct (IH (S k) (fst (Engine.executeTrade_exit cfg st (envs k) o)))
      as (st' & E & Hb & Hh & Hl & Hc).
    exists st'. split; [exact E|]. repeat split; congruence.
Qed.

(** X14: with the live engine as the trader, [scanAndTrade] counts the
    opportunities as found and records them as not taken, and that is all:
    whatever the quotes and the chain answer, no trade is executed, none
    is sent to the notifier, none is recorded as taken, and the engine's
    balance, breaker and failure counts are as before. *)
Theorem live_scan_executes_nothing (cfg : Config) (envs : nat -> Env)
    (s : Session) (st : Engine.LiveTrader) (opps : list TradeOpportunity) :
  forallb recordable opps = true ->
  let '(s', st', io, ok) := scanAndTrade (live_trader cfg envs) s st opps in
  ok = true /\ scanning s' = false /\
  tradesExecuted s' = tradesExecuted s /\
  io = map (fun o => RecordOpportunity o false) opps /\
  Engine.balance st' = Engine.balance st /\
  Engine._halted st' = Engine._halted st /\
  Engine._dailyLoss st' = Engine._dailyLoss st /\
  Engine._sellFailureCounts st' = Engine._sellFailureCounts st.
Proof.
  intros Hrec. unfold scanAndTrade.
  destruct opps as [|o rest]; [cbn; repeat split|].
  rewrite record_found_ok by exact Hrec. cbn [negb].
  destruct (trade_each_live cfg envs
              (firstn 3 (sort_by_profit (o :: rest))) 0 st)
    as (st' & -> & Hb & Hh & Hl & Hc).
  cbn [negb tradesExecuted scanning].
  rewrite Nat.add_0_r, List.app_nil_r. repeat split; assumption.
Qed.

Lemma live_scan_executes_nothing_witness :
  let '(s', st', io, ok) :=
    scanAndTrade (live_trader sample_config (fun _ => sample_env 2000))
      sample_session sample_trader sample_opportunities in
  ok = true /\ scanning s' = false /\ tradesExecuted s' = 0%nat /\
  length io = 4%nat.
Proof.
  assert (H : forallb recordable sample_opportunities = true)
    by reflexivity.
  pose proof (live_scan_executes_nothing sample_config
                (fun _ => sample_env 2000) sample_session sample_trader
                sample_opportunities H) as P.
  destruct (scanAndTrade (live_trader sample_config (fun _ => sample_env 2000))
              sample_session sample_trader sample_opportunities)
    as [[[s' st'] io] ok].
  destruct P as (P1 & P2 & P3 & -> & _).
  exact (conj P1 (conj P2 (conj P3 eq_refl))).
Defined.

End PipelineProps.

(* ===================================================================== *)
(** ** Further properties of the triggers *)
(* ===================================================================== *)

Module SchedulerMore.
Import Scheduler.

Lemma step_lastScanAt b t e b' :
  step b t e = Some b' -> lastScanAt b <= lastScanAt b'.
Proof.
  unfold step. destruct (t <? clock b); [discriminate|].
  destruct e as [dex| | |i]; cbn.
  - intros H; injection H as <-. cbn. lia.
  - destruct (debounceTimer b) as [[d dex]|]; [|discriminate].
    destruct (d <=? t); [|discriminate].
    intros H; injection H as <-. unfold debounce_callback. cbn.
    destruct (t - lastScanAt b <? MIN_SCAN_INTERVAL_MS) eqn:E; cbn; [lia|].
    apply Z.ltb_ge in E. unfold MIN_SCAN_INTERVAL_MS in E.
    unfold _onSwapEvent. cbn. destruct (scanning b); cbn; lia.
  - destruct (fallbackTimer b) as [d|]; [|discriminate].
    destruct (d <=? t); [|discriminate].
    intros H; injection H as <-. cbn. lia.
  - destruct (inflight b !! i) as [who|]; [|discriminate].
    intros H; injection H as <-. destruct who; cbn; lia.
Qed.

Lemma debounce_starts_after_cooldown b t b' :
  step b t DebounceFires = Some b' ->
  (length (inflight b) <? length (inflight b'))%nat = true ->
  lastScanAt b + MIN_SCAN_INTERVAL_MS <= t /\ lastScanAt b' = t /\
  scanning b = false /\ inflight b' = (inflight b ++ [Push])%list /\
  fallbackTimer b' = Some (t + FALLBACK_POLL_MS).
Proof.
  unfold step. destruct (t <? clock b); [discriminate|]. cbn.
  destruct (debounceTimer b) as [[d dex]|]; [|discriminate].
  destruct (d <=? t); [|discriminate].
  intros H; injection H as <-. unfold debounce_callback. cbn.
  destruct (t - lastScanAt b <? MIN_SCAN_INTERVAL_MS) eqn:E; cbn.
  - intros H. apply Nat.ltb_lt in H. lia.
  - apply Z.ltb_ge in E. unfold _onSwapEvent. cbn.
    destruct (scanning b); cbn.
    + intros H. apply Nat.ltb_lt in H. lia.
    + intros _. repeat split. lia.
Qed.

(** X15: in every run of callbacks from every state, two push-triggered
    scans start at least [MIN_SCAN_INTERVAL_MS] = 8000 ms apart, and the
    first one at least that long after the last trigger before the run. *)
Theorem push_scans_spaced (b : Bot) (trace : list (Z * event)) :
  Sorted (fun t t' => t + 8000 <= t') (push_scan_times b trace) /\
  Forall (fun t => lastScanAt b + 8000 <= t) (push_scan_times b trace).
Proof.
  revert b. induction trace as [|[t e] rest IH]; intros b;
    cbn [push_scan_times].
  - split; constructor.
  - destruct (step b t e) as [b'|] eqn:E; [|split; constructor].
    destruct (IH b') as [Hs Hf].
    pose proof (step_lastScanAt _ _ _ _ E) as Hmono.
    assert (Hlater : Forall (fun t => lastScanAt b + 8000 <= t)
                       (push_scan_times b' rest)).
    { eapply List.Forall_impl; [|exact Hf]. cbn. intros; lia. }
    destruct e as [dex| | |i]; try (split; assumption).
    destruct (length (inflight b) <? length (inflight b'))%nat eqn:El;
      [|split; assumption].
    destruct (debounce_starts_after_cooldown _ _ _ E El)
      as (Hc & Hl & _).
    unfold MIN_SCAN_INTERVAL_MS in Hc.
    split.
    + constructor; [exact Hs|].
      destruct (push_scan_times b' rest) as [|t' l]; constructor.
      apply List.Forall_cons_iff in Hf as [Hf _]. lia.
    + constructor; [lia | exact Hlater].
Qed.

Lemma in_without {A} (x : A) (l : list A) : forall i y,
  l !! i = Some y -> y <> x -> In x l ->
  In x (take i l ++ drop (S i) l)%list.
Proof.
  induction l as [|z l IH]; intros [|i] y Hy Hne Hin; cbn in *;
    try discriminate.
  - injection Hy as ->. destruct Hin as [->|Hin]; [congruence|].
    rewrite drop_0. exact Hin.
  - destruct Hin as [->|Hin]; [left; reflexivity|].
    right. eapply IH; eassumption.
Qed.

Lemma start_inv t0 : scheduler_inv (start t0).
Proof.
  unfold scheduler_inv, pending_triggers; cbn.
  repeat split; [discriminate | discriminate | lia].
Qed.

Lemma app_not_nil {A} (l : list A) (x : A) : (l ++ [x])%list <> [].
Proof. destruct l; discriminate. Qed.

Lemma step_inv b t e b' :
  scheduler_inv b -> step b t e = Some b' -> scheduler_inv b'.
Proof.
  intros (I1 & I2 & I3). unfold pending_triggers in I3. unfold step.
  destruct (t <? clock b); [discriminate|].
  destruct e as [dex| | |i]; cbn.
  - intros H; injection H as <-. unfold scheduler_inv, pending_triggers; cbn.
    repeat split; [exact I1 | exact I2 |].
    destruct (debounceTimer b); lia.
  - destruct (debounceTimer b) as [[d dex]|] eqn:Ed; [|discriminate].
    destruct (d <=? t); [|discriminate].
    intros H; injection H as <-. unfold debounce_callback. cbn.
    destruct (t - lastScanAt b <? MIN_SCAN_INTERVAL_MS); cbn.
    + unfold scheduler_inv, pending_triggers; cbn. repeat split; [exact I1 | exact I2 | lia].
    + unfold _onSwapEvent. cbn. destruct (scanning b) eqn:Es; cbn.
      * unfold scheduler_inv, pending_triggers; cbn.
        repeat split; [exact I1 | intros _; now apply I2 | lia].
      * unfold scheduler_inv, pending_triggers; cbn.
        repeat split; [discriminate | intros _; apply app_not_nil | lia].
  - destruct (fallbackTimer b) as [d|]; [|discriminate].
    destruct (d <=? t); [|discriminate].
    intros H; injection H as <-. unfold scheduler_inv, pending_triggers; cbn.
    repeat split; [| intros _; apply app_not_nil | exact I3].
    intros _. apply List.in_or_app. right. left. reflexivity.
  - destruct (inflight b !! i) as [who|] eqn:Ei; [|discriminate].
    intros H; injection H as <-.
    destruct who; unfold scheduler_inv, pending_triggers; cbn;
      repeat split; try discriminate; try exact I3;
      intros Hn; eapply in_without; eauto; discriminate.
Qed.

Lemma run_inv trace : forall b b',
  scheduler_inv b -> run b trace = Some b' -> scheduler_inv b'.
Proof.
  induction trace as [|[t e] rest IH]; intros b b' Hb; cbn.
  - intros H; injection H as <-. exact Hb.
  - destruct (step b t e) as [b1|] eqn:E; [|discriminate].
    apply IH. eapply step_inv; eassumption.
Qed.

(** X16: in every state the bot reaches by callbacks and normally
    returning scans, the dead-man's switch is not lost (the fallback timer
    is armed, or a fallback scan that will re-arm it is in flight), the
    scanning flag is set only while some scan is in flight, and the
    triggers counted as scans, with the one still pending, never
    outnumber the swap events counted. *)
Theorem reachable_states_keep_fallback (b : Bot) :
  reachable b ->
  (fallbackTimer b = None -> In Fallback (inflight b)) /\
  (scanning b = true -> inflight b <> []) /\
  (triggeredScans b + pending_triggers b <= swapEventCount b)%nat.
Proof.
  intros (t0 & trace & H).
  exact (run_inv trace _ _ (start_inv t0) H).
Qed.

Lemma reachable_states_keep_fallback_witness :
  exists b, run (start 0) sample_trace = Some b /\
    (fallbackTimer b = None -> In Fallback (inflight b)) /\
    (scanning b = true -> inflight b <> []) /\
    (triggeredScans b + pending_triggers b <= swapEventCount b)%nat.
Proof.
  eexists. split; [vm_compute; reflexivity|].
  apply reachable_states_keep_fallback.
  exists 0, sample_trace. vm_compute. reflexivity.
Defined.

Lemma run_app l1 : forall b l2,
  run b (l1 ++ l2)%list
  = match run b l1 with Some b1 => run b1 l2 | None => None end.
Proof.
  induction l1 as [|[t e] l1 IH]; intros b l2; cbn; [reflexivity|].
  destruct (step b t e); [apply IH | reflexivity].
Qed.

Lemma run_logs logs : forall b b1,
  Forall (fun te => is_Logs (snd te) = true) logs ->
  run b logs = Some b1 ->
  swapEventCount b1 = (swapEventCount b + length logs)%nat /\
  triggeredScans b1 = triggeredScans b /\
  lastScanAt b1 = lastScanAt b /\
  inflight b1 = inflight b /\
  scanning b1 = scanning b /\
  fallbackTimer b1 = fallbackTimer b /\
  (logs <> [] ->
   exists dex, debounceTimer b1 = Some (clock b1 + DEBOUNCE_MS, dex)).
Proof.
  induction logs as [|[t e] rest IH]; intros b b1 Hl; cbn.
  - intros H; injection H as <-. repeat split; auto. congruence.
  - apply List.Forall_cons_iff in Hl as [He Hl]. cbn in He.
    destruct e as [dex| | |i]; try discriminate.
    unfold step. destruct (t <? clock b); [discriminate|].
    intros H. destruct (IH _ _ Hl H) as (H1 & H2 & H3 & H4 & H5 & H6 & H7).
    cbn in *. repeat split; try assumption; [lia|].
    intros _. destruct rest as [|x rest'].
    + cbn in H. injection H as <-. cbn. eexists; reflexivity.
    + apply H7. discriminate.
Qed.

(** X17: a burst of swap events, however many, leaves one debounce timer,
    due 150 ms after the last event: the events are all counted, none of
    them starts a scan or counts as a trigger, the timer's callback
    starts one scan at most, and no second callback follows it. *)
Theorem burst_is_one_trigger (b b1 : Bot) (logs : list (Z * event)) :
  logs <> [] ->
  Forall (fun te => is_Logs (snd te) = true) logs ->
  run b logs = Some b1 ->
  swapEventCount b1 = (swapEventCount b + length logs)%nat /\
  triggeredScans b1 = triggeredScans b /\
  inflight b1 = inflight b /\
  forall t b2, step b1 t DebounceFires = Some b2 ->
    clock b1 + 150 <= t /\
    (triggeredScans b2 <= S (triggeredScans b))%nat /\
    (length (inflight b2) <= S (length (inflight b)))%nat /\
    forall t', step b2 t' DebounceFires = None.
Proof.
  intros Hne Hl Hrun.
  destruct (run_logs _ _ _ Hl Hrun) as (H1 & H2 & H3 & H4 & H5 & H6 & H7).
  destruct (H7 Hne) as [dex Hd].
  repeat split; try assumption.
  all: revert H; unfold step; destruct (t <? clock b1); [discriminate|];
    cbn; rewrite Hd; unfold DEBOUNCE_MS;
    destruct (clock b1 + 150 <=? t) eqn:Et; [|discriminate];
    intros H; injection H as <-; unfold debounce_callback; cbn.
  - apply Z.leb_le in Et. lia.
  - destruct (t - lastScanAt b1 <? MIN_SCAN_INTERVAL_MS); cbn; [lia|].
    unfold _onSwapEvent; cbn. destruct (scanning b1); cbn; lia.
  - destruct (t - lastScanAt b1 <? MIN_SCAN_INTERVAL_MS); cbn;
      [rewrite H4; lia|].
    unfold _onSwapEvent; cbn. destruct (scanning b1); cbn;
      rewrite ?List.length_app, H4; cbn; lia.
  - intros t'.
    destruct (t - lastScanAt b1 <? MIN_SCAN_INTERVAL_MS); cbn.
    + destruct (t' <? t); reflexivity.
    + unfold _onSwapEvent; cbn. destruct (scanning b1); cbn;
        destruct (t' <? t); reflexivity.
Qed.

Lemma burst_is_one_trigger_witness :
  exists b1, run (start 0) sample_burst = Some b1 /\
    swapEventCount b1 = 3%nat /\ triggeredScans b1 = 0%nat /\
    inflight b1 = [Boot].
Proof.
  eexists. split; [reflexivity|].
  assert (Hne : sample_burst <> []) by discriminate.
  assert (Hl : Forall (fun te => is_Logs (snd te) = true) sample_burst)
    by (repeat constructor).
  destruct (burst_is_one_trigger (start 0) _ sample_burst Hne Hl eq_refl)
    as (H1 & H2 & H3 & _).
  exact (conj H1 (conj H2 H3)).
Defined.

(** X18: the reconnection delay of the monitor grows by five seconds per
    attempt, is never below five seconds nor above a minute, and is one
    minute from the twelfth attempt on. *)
Theorem reconnect_delay_bounds (attempts : Z) :
  0 <= attempts ->
  let '(attempts', delay) := _scheduleReconnect attempts in
  attempts' = attempts + 1 /\
  5000 <= delay <= 60000 /\
  (attempts' <= 12 -> delay = 5000 * attempts') /\
  (12 <= attempts' -> delay = 60000) /\
  delay <= snd (_scheduleReconnect attempts').
Proof.
  intros H. unfold _scheduleReconnect. cbn [snd]. lia.
Qed.

Lemma reconnect_delay_bounds_witness :
  _scheduleReconnect 2 = (3, 15000) /\
  snd (_scheduleReconnect 2) <= snd (_scheduleReconnect 3).
Proof.
  pose proof (reconnect_delay_bounds 2 ltac:(lia)) as P.
  cbn in P. destruct P as (_ & _ & _ & _ & P).
  split; [reflexivity | exact P].
Defined.

End SchedulerMore.

(* ===================================================================== *)
(** ** Further properties of the price sources *)
(* ===================================================================== *)

Module PricesMore.
Import Prices.

Lemma quoteDex_probe env dex mint p :
  _quoteDex env dex mint = Some p ->
  liquidity p = dec 999999 1 /\ volume24h p = dec 999999 1 /\
  timestamp p = nowQuote env dex.
Proof.
  unfold _quoteDex. destruct (dexQuote env dex mint) as [q|]; [|discriminate].
  destruct (_ || _); [discriminate|].
  destruct (jeq _ _); [discriminate|].
  intros H; injection H as <-. cbn. auto.
Qed.

Lemma quote_all_probes env mint dexes :
  Forall (fun p => liquidity p = dec 999999 1 /\ volume24h p = dec 999999 1)
         (quote_all env mint dexes).
Proof.
  unfold quote_all. induction dexes as [|dex dexes IH]; cbn; [constructor|].
  destruct (_quoteDex env dex mint) as [p|] eqn:E; cbn; [|exact IH].
  constructor; [|exact IH].
  destruct (quoteDex_probe _ _ _ _ E) as (H1 & H2 & _). auto.
Qed.

Lemma insert_from_quotes cache tok ts env mint :
  cache_from_quotes cache ->
  cache_from_quotes (<[tok := (ts, quote_all env mint TARGET_DEXES)]> cache).
Proof.
  intros Hc k ts' ps Hk. destruct (decide (tok = k)) as [->|Hne].
  - rewrite lookup_insert_eq in Hk. injection Hk as <- <-.
    exists env, mint. reflexivity.
  - rewrite lookup_insert_ne in Hk by exact Hne. eapply Hc, Hk.
Qed.

Lemma getPrices_from_quotes cfg cache env tok :
  cache_from_quotes cache ->
  cache_from_quotes (fst (getPrices cfg cache env tok)) /\
  (snd (getPrices cfg cache env tok) = [] \/
   exists env' mint,
     snd (getPrices cfg cache env tok) = quote_all env' mint TARGET_DEXES).
Proof.
  intros Hc. unfold getPrices.
  destruct (getTokenMint cfg tok) as [mint|]; [|split; [exact Hc | left; reflexivity]].
  destruct (cache !! tok) as [[ts cached]|] eqn:E.
  - destruct (_ <? _); cbn [fst snd].
    + split; [exact Hc | right; eapply Hc, E].
    + split; [now apply insert_from_quotes | right; eauto].
  - cbn [fst snd]. split; [now apply insert_from_quotes | right; eauto].
Qed.

(** X19: with a cache that only [getPrices] has written, [getPrices]
    returns at most one point for each of Raydium, Orca and Meteora, in
    that order (so three points at most), each with the placeholder
    liquidity and volume 999999; and the cache stays such a cache. *)
Theorem getPrices_points_are_probes (cfg : Config) (cache : Cache) (env : Env)
    (tok : string) :
  cache_from_quotes cache ->
  let '(cache', ps) := getPrices cfg cache env tok in
  cache_from_quotes cache' /\
  venues ps `sublist_of` ["Raydium"; "Orca"; "Meteora"] /\
  (length ps <= 3)%nat /\
  Forall (fun p => liquidity p = dec 999999 1 /\ volume24h p = dec 999999 1)
         ps.
Proof.
  intros Hc. destruct (getPrices_from_quotes cfg cache env tok Hc) as [H1 H2].
  destruct (getPrices cfg cache env tok) as [cache' ps]. cbn [fst snd] in *.
  split; [exact H1|].
  destruct H2 as [-> | (env' & mint & ->)].
  - repeat split; [apply sublist_nil_l | cbn; lia | constructor].
  - pose proof (PricesProps.quote_all_venues env' mint TARGET_DEXES) as Hs.
    repeat split; [exact Hs | | apply quote_all_probes].
    apply sublist_length in Hs. unfold venues in Hs.
    rewrite List.length_map in Hs. exact Hs.
Qed.

Lemma getPrices_points_are_probes_witness :
  map exchange (snd (getPrices sample_config ∅ sample_prices_env_later "RAY"))
  `sublist_of` ["Raydium"; "Orca"; "Meteora"] /\
  length (snd (getPrices sample_config ∅ sample_prices_env_later "RAY"))
  = 3%nat.
Proof.
  assert (H : cache_from_quotes ∅).
  { intros tok ts ps Hl. rewrite lookup_empty in Hl. discriminate. }
  pose proof (getPrices_points_are_probes sample_config ∅
                sample_prices_env_later "RAY" H) as P.
  destruct (getPrices sample_config ∅ sample_prices_env_later "RAY")
    as [c ps] eqn:E.
  destruct P as (_ & P & _).
  split; [exact P|].
  vm_compute in E. injection E as _ <-. reflexivity.
Defined.

(** X20: with a cache that only [getPrices] has written, every price
    point [fetchAllPrices] returns passes the liquidity and volume test of
    the fallback branch, whichever source it came from: the points of the
    primary source carry 999999 for both figures. *)
Theorem fetchAllPrices_points_liquid (cfg : Config) (cache : Cache)
    (env : Env) (tok : string) :
  cache_from_quotes cache ->
  let '(cache', ps) := fetchAllPrices cfg cache env tok in
  cache_from_quotes cache' /\ Forall (fun p => liquid p = true) ps.
Proof.
  intros Hc. unfold fetchAllPrices.
  pose proof (getPrices_from_quotes cfg cache env tok Hc) as [H1 H2].
  destruct (getPrices cfg cache env tok) as [cache' jup]. cbn [fst snd] in *.
  destruct (2 <=? length jup)%nat.
  - split; [exact H1|].
    destruct H2 as [-> | (env' & mint & ->)]; [constructor|].
    eapply List.Forall_impl; [|apply quote_all_probes].
    intros p [Hl Hv]. unfold liquid. rewrite Hl, Hv. reflexivity.
  - split; [exact H1|].
    destruct (dexScreener env) as [l|]; [|constructor].
    apply List.Forall_forall. intros p Hp.
    apply List.filter_In in Hp as [_ Hp]. exact Hp.
Qed.

Lemma fetchAllPrices_points_liquid_witness :
  Forall (fun p => liquid p = true)
    (snd (fetchAllPrices sample_config ∅ sample_prices_env "RAY")) /\
  map exchange (snd (fetchAllPrices sample_config ∅ sample_prices_env "RAY"))
  = ["Orca"].
Proof.
  assert (H : cache_from_quotes ∅).
  { intros tok ts ps Hl. rewrite lookup_empty in Hl. discriminate. }
  pose proof (fetchAllPrices_points_liquid sample_config ∅
                sample_prices_env "RAY" H) as P.
  destruct (fetchAllPrices sample_config ∅ sample_prices_env "RAY")
    as [c ps] eqn:E.
  destruct P as [_ P]. split; [exact P|].
  vm_compute in E. injection E as _ <-. reflexivity.
Defined.

(** X21: what [getPrices] returns for a known token it also leaves in the
    cache, and for the next 2000 ms (by the clock of the cache check)
    every call for that token returns the same points without asking any
    DEX and without touching the cache; from 2000 ms on it quotes
    again. *)
Theorem cached_quotes_served_within_ttl (cfg : Config) (cache : Cache)
    (env : Env) (tok mint : string) :
  getTokenMint cfg tok = Some mint ->
  let '(cache1, ps) := getPrices cfg cache env tok in
  exists ts, cache1 !! tok = Some (ts, ps) /\
    (forall env', nowCheck env' - ts < 2000 ->
       getPrices cfg cache1 env' tok = (cache1, ps)) /\
    (forall env', 2000 <= nowCheck env' - ts ->
       snd (getPrices cfg cache1 env' tok)
       = quote_all env' mint TARGET_DEXES).
Proof.
  intros Hm.
  assert (Hserve : forall c ts ps, c !! tok = Some (ts, ps) ->
    (forall env', nowCheck env' - ts < 2000 ->
       getPrices cfg c env' tok = (c, ps)) /\
    (forall env', 2000 <= nowCheck env' - ts ->
       snd (getPrices cfg c env' tok) = quote_all env' mint TARGET_DEXES)).
  { intros c ts ps Hl. split; intros env' Ht; unfold getPrices;
      rewrite Hm, Hl; unfold CACHE_TTL_MS.
    - apply Z.ltb_lt in Ht. rewrite Ht. reflexivity.
    - apply Z.ltb_ge in Ht. rewrite Ht. reflexivity. }
  assert (Hkept : exists ts,
    fst (getPrices cfg cache env tok) !! tok
    = Some (ts, snd (getPrices cfg cache env tok))).
  { unfold getPrices. rewrite Hm.
    destruct (cache !! tok) as [[ts cached]|] eqn:E.
    - destruct (nowCheck env - ts <? CACHE_TTL_MS); cbn [fst snd].
      + exists ts. exact E.
      + exists (nowStore env). apply lookup_insert_eq.
    - exists (nowStore env). apply lookup_insert_eq. }
  destruct (getPrices cfg cache env tok) as [cache1 ps]. cbn [fst snd] in *.
  destruct Hkept as [ts Hl]. exists ts.
  split; [exact Hl | exact (Hserve _ _ _ Hl)].
Qed.

Lemma cached_quotes_served_within_ttl_witness :
  getTokenMint sample_config "RAY"
  = Some "4k3Dyjzvzp8eMZWUXbBCjEvwSkkk59S5iCNLY3QrkX6R" /\
  let '(cache1, ps) := getPrices sample_config ∅ sample_prices_env "RAY" in
  getPrices sample_config cache1 sample_prices_env_later "RAY" = (cache1, ps).
Proof.
  assert (H : getTokenMint sample_config "RAY"
              = Some "4k3Dyjzvzp8eMZWUXbBCjEvwSkkk59S5iCNLY3QrkX6R")
    by reflexivity.
  split; [exact H|].
  pose proof (cached_quotes_served_within_ttl sample_config ∅
                sample_prices_env "RAY" _ H) as P.
  destruct (getPrices sample_config ∅ sample_prices_env "RAY")
    as [cache1 ps] eqn:E.
  destruct P as (ts & Hl & Hin & _).
  apply Hin.
  assert (Hts : cache1 !! "RAY" = Some (1000, ps)).
  { unfold getPrices in E. rewrite H in E. rewrite lookup_empty in E.
    injection E as <- <-. apply lookup_insert_eq. }
  rewrite Hts in Hl. injection Hl as <-. reflexivity.
Defined.

End PricesMore.
